(** * JugglingSimulator: the ball state machine of [juggling_sim.py]

    A shallow embedding of the siteswap interpreter, of the per-ball
    throw/catch state machine and of the frame callback that drives it,
    followed by the properties of the design document that concern them
    and by further facts read off the code.

    Numbers.  Python's [int] is [Z].  Python's [float] is idealised as an
    exact rational [Q]: every constant of the core except [g] is dyadic, and
    rounding error is outside what is stated here.  The one place where a
    float operation leaves the finite numbers is the division of line 58
    (a numpy scalar divided by [flight_time]); its result, and the [x]
    coordinate computed from it, live in [num], which adds the two
    infinities and NaN to [Q].

    Exceptions.  A Python exception is the name of its class; a computation
    that may raise returns [result].

    Scope.  The input is a string of bytes; on ASCII inputs ([isascii])
    [Py.isdigit] and [Py.int_of_char] are Python's [str.isdigit] and [int],
    and statements about input strings are made for such inputs (beyond
    ASCII Python knows more digits, some of which [int] refuses).  The
    OverflowError that a float operation raises outside the range of the
    floats is not modelled; statements about what a call raises are made
    for times and throw values inside it ([time_fits], [int_fits]). *)

From Stdlib Require Import ZArith QArith Qround Qabs List String Ascii Bool Lia Lqa.
Import ListNotations.

Local Open Scope Q_scope.

(** ** Python primitives *)

Module Py.

Definition exn := string.

Inductive result (A : Type) : Type :=
| Ok (a : A)
| Err (e : exn).

Arguments Ok {A} a.
Arguments Err {A} e.

Definition bind {A B} (r : result A) (k : A -> result B) : result B :=
  match r with
  | Ok a => k a
  | Err e => Err e
  end.

Definition ZeroDivisionError : exn := "ZeroDivisionError"%string.
Definition IndexError : exn := "IndexError"%string.
Definition TypeError : exn := "TypeError"%string.

(** [x < y] on floats. *)
Definition Qlt_bool (x y : Q) : bool :=
  match Qcompare x y with
  | Lt => true
  | _ => false
  end.

(** [round(x)] with one argument: the nearest integer, a tie going to the
    even neighbour. *)
Definition round (x : Q) : Z :=
  let f := Qfloor x in
  match Qcompare (x - inject_Z f) (1 # 2) with
  | Lt => f
  | Gt => (f + 1)%Z
  | Eq => if Z.even f then f else (f + 1)%Z
  end.

(** [int(x)] on a float: truncation toward zero. *)
Definition int (x : Q) : Z := Z.quot (Qnum x) (Zpos (Qden x)).

(** [a / b] on two ints: true division. *)
Definition truediv (a b : Z) : result Q :=
  if (b =? 0)%Z then Err ZeroDivisionError
  else Ok (inject_Z a / inject_Z b).

(** [a % b] on two ints: the result has the sign of [b]. *)
Definition mod_ (a b : Z) : result Z :=
  if (b =? 0)%Z then Err ZeroDivisionError
  else Ok (a mod b)%Z.

(** [l[i]] on a list: a negative index counts from the end. *)
Definition getitem {A} (l : list A) (i : Z) : result A :=
  let n := Z.of_nat (List.length l) in
  let j := if (i <? 0)%Z then (i + n)%Z else i in
  if ((j <? 0) || (n <=? j))%Z then Err IndexError
  else match nth_error l (Z.to_nat j) with
       | Some a => Ok a
       | None => Err IndexError
       end.

(** [sum(l)] on a list of ints. *)
Definition sum (l : list Z) : Z := fold_left Z.add l 0%Z.

(** [range(n)]. *)
Definition range (n : Z) : list Z := map Z.of_nat (seq 0 (Z.to_nat n)).

(** [ch.isdigit()] and [int(ch)], on the characters of an ASCII string. *)
Definition isdigit (ch : ascii) : bool :=
  let c := nat_of_ascii ch in
  (48 <=? c)%nat && (c <=? 57)%nat.

Definition int_of_char (ch : ascii) : Z := (Z.of_nat (nat_of_ascii ch) - 48)%Z.

End Py.

Import Py.

Notation "x <- r ;; k" := (Py.bind r (fun x => k))
  (at level 61, r at next level, right associativity).

(** ** Floats that may leave the finite numbers *)

Inductive num : Type :=
| Fin (q : Q)
| Inf (negative : bool)
| NaN.

(** [a / b] with [a] a numpy scalar: a zero divisor raises nothing and
    yields an infinity or NaN.  (The zero of line 41 is [+0.0].) *)
Definition np_div (a b : Q) : num :=
  if Qeq_bool b 0 then
    match Qcompare a 0 with
    | Eq => NaN
    | Gt => Inf false
    | Lt => Inf true
    end
  else Fin (a / b).

(** [v * t] with [t] finite. *)
Definition num_mul (v : num) (t : Q) : num :=
  match v with
  | Fin q => Fin (q * t)
  | Inf s =>
      match Qcompare t 0 with
      | Eq => NaN
      | Gt => Inf s
      | Lt => Inf (negb s)
      end
  | NaN => NaN
  end.

(** [a + v] with [a] finite. *)
Definition num_add (a : Q) (v : num) : num :=
  match v with
  | Fin q => Fin (a + q)
  | Inf s => Inf s
  | NaN => NaN
  end.

(** Equality of floats up to the representation of a rational. *)
Definition num_eq (u v : num) : Prop :=
  match u, v with
  | Fin p, Fin q => p == q
  | Inf s, Inf s' => s = s'
  | _, _ => False
  end.

(** ** Global parameters *)

Definition T_beat : Q := 1 # 2.
Definition g : Q := 49 # 5.
Definition throw_delay : Q := 1 # 4.

Inductive Hand : Type := R | L.

Definition hand_positions (h : Hand) : Q * Q :=
  match h with
  | R => (1, 0)
  | L => (- (1), 0)
  end.

Definition array (p : Q * Q) : num * num := (Fin (fst p), Fin (snd p)).

(** ** Ball *)

Inductive State : Type := in_hand | in_air.

(** The seven attributes "used during a throw".  [__init__] sets all of
    them to [None] and [throw] assigns all of them, so they are [None]
    together or set together. *)
Record Flight : Type := mkFlight {
  start_time : Q;
  flight_time : Q;
  catch_time : Q;
  start_pos : Q * Q;
  vx : num;
  vy : Q;
  dest_hand : Hand
}.

Record Ball : Type := mkBall {
  ball_id : Z;
  next_throw_time : Q;
  hand : Hand;
  state : State;
  pos : num * num;
  flight : option Flight
}.

Definition Ball_init (ball_id : Z) (next_throw_time : Q) (hand : Hand) : Ball :=
  {| ball_id := ball_id;
     next_throw_time := next_throw_time;
     hand := hand;
     state := in_hand;
     pos := array (hand_positions hand);
     flight := None |}.

Definition opposite (h : Hand) : Hand :=
  match h with
  | R => L
  | L => R
  end.

(** Lines 38-39: the beat of the scheduled throw time and the throw value
    attached to it.  ([round] already returns an [int], on which [int] is the
    identity.) *)
Definition beat_of (self : Ball) : Z :=
  Py.round (next_throw_time self / T_beat).

Definition throw_value_of (self : Ball) (siteswap : list Z) (period : Z) : result Z :=
  i <- Py.mod_ (beat_of self) period ;;
  Py.getitem siteswap i.

(** Lines 47-51. *)
Definition dest_of (source_hand : Hand) (throw_value : Z) : Hand :=
  if (throw_value mod 2 =? 1)%Z then opposite source_hand else source_hand.

(** Lines 41-64, once the throw value is known. *)
Definition launch (self : Ball) (current_time : Q) (throw_value : Z) : Ball :=
  let flight_time := inject_Z throw_value * T_beat in
  let catch_time := current_time + flight_time in
  let source_hand := hand self in
  let source_pos := hand_positions source_hand in
  let dest_hand := dest_of source_hand throw_value in
  let dest_pos := hand_positions dest_hand in
  {| ball_id := ball_id self;
     next_throw_time := next_throw_time self;
     hand := hand self;
     state := in_air;
     pos := pos self;
     flight := Some
       {| start_time := current_time;
          flight_time := flight_time;
          catch_time := catch_time;
          start_pos := source_pos;
          vx := np_div (fst dest_pos - fst source_pos) flight_time;
          vy := (1 # 2) * g * flight_time;
          dest_hand := dest_hand |} |}.

(** [Ball.throw].  Both exceptions it can raise come before its first
    assignment, so a raising call leaves the ball as it was. *)
Definition throw (self : Ball) (current_time : Q) (siteswap : list Z) (period : Z)
  : result Ball :=
  throw_value <- throw_value_of self siteswap period ;;
  Ok (launch self current_time throw_value).

(** Lines 74-76: the point of the parabola [t] after the launch. *)
Definition trajectory (f : Flight) (t : Q) : num * num :=
  let x := num_add (fst (start_pos f)) (num_mul (vx f) t) in
  let y := snd (start_pos f) + vy f * t - (1 # 2) * g * t ^ 2 in
  (x, Fin y).

Definition set_pos (self : Ball) (p : num * num) : Ball :=
  {| ball_id := ball_id self;
     next_throw_time := next_throw_time self;
     hand := hand self;
     state := state self;
     pos := p;
     flight := flight self |}.

(** Lines 79-83. *)
Definition caught (self : Ball) (f : Flight) : Ball :=
  {| ball_id := ball_id self;
     next_throw_time := catch_time f;
     hand := dest_hand f;
     state := in_hand;
     pos := array (hand_positions (dest_hand f));
     flight := flight self |}.

(** [Ball.update]. *)
Definition update (self : Ball) (current_time : Q) (siteswap : list Z) (period : Z)
  : result Ball :=
  match state self with
  | in_air =>
      match flight self with
      | None => Err TypeError
      | Some f =>
          let t := current_time - start_time f in
          if Qlt_bool t (flight_time f) then Ok (set_pos self (trajectory f t))
          else Ok (caught self f)
      end
  | in_hand =>
      if Qle_bool (next_throw_time self + throw_delay) current_time
      then throw self current_time siteswap period
      else Ok (set_pos self (array (hand_positions (hand self))))
  end.

(** ** Main program: the siteswap and the balls *)

Definition parse (siteswap_input : string) : list Z :=
  map Py.int_of_char (filter Py.isdigit (list_ascii_of_string siteswap_input)).

Definition period_of (siteswap : list Z) : Z := Z.of_nat (List.length siteswap).

Definition num_balls_of (siteswap : list Z) (period : Z) : result Z :=
  q <- Py.truediv (Py.sum siteswap) period ;;
  Ok (Py.int q).

Definition make_balls (num_balls : Z) : list Ball :=
  map (fun i => Ball_init i (inject_Z i * T_beat)
                  (if (i mod 2 =? 0)%Z then R else L))
      (Py.range num_balls).

Record Program : Type := mkProgram {
  siteswap : list Z;
  period : Z;
  num_balls : Z;
  balls : list Ball
}.

(** Lines 93-107.  The division of line 98 is the only statement that can
    raise, and it comes before the loop that creates the balls. *)
Definition initialise (siteswap_input : string) : result Program :=
  let siteswap := parse siteswap_input in
  let period := period_of siteswap in
  num_balls <- num_balls_of siteswap period ;;
  Ok {| siteswap := siteswap;
        period := period;
        num_balls := num_balls;
        balls := make_balls num_balls |}.

(** ** Animation: the markers and the frame callback *)

Fixpoint mapM {A B} (f : A -> result B) (l : list A) : result (list B) :=
  match l with
  | [] => Ok []
  | a :: l' =>
      b <- f a ;;
      bs <- mapM f l' ;;
      Ok (b :: bs)
  end.

Definition colors : list string :=
  ["blue"; "red"; "green"; "orange"; "purple"; "cyan"]%string.

(** What the program keeps of a [plt.Circle]. *)
Record Marker : Type := mkMarker {
  center : num * num;
  radius : Q;
  color : string;
  zorder : Z
}.

(** Lines 129-130. *)
Definition make_marker (i : Z) : result Marker :=
  k <- Py.mod_ i (Z.of_nat (List.length colors)) ;;
  color <- Py.getitem colors k ;;
  Ok {| center := (Fin 0, Fin 0); radius := 1 # 10; color := color; zorder := 5 |}.

(** Lines 127-132. *)
Definition make_markers (num_balls : Z) : result (list Marker) :=
  mapM make_marker (Py.range num_balls).

Definition dt : Q := 1 # 50.

(** The objects that [update_frame] mutates: the clock, the balls and the
    markers. *)
Record Sim : Type := mkSim {
  sim_time : Q;
  sim_balls : list Ball;
  ball_markers : list Marker
}.

(** Lines 126-135, after the balls are created. *)
Definition setup (p : Program) : result Sim :=
  ms <- make_markers (num_balls p) ;;
  Ok {| sim_time := 0; sim_balls := balls p; ball_markers := ms |}.

Definition set_center (m : Marker) (c : num * num) : Marker :=
  {| center := c; radius := radius m; color := color m; zorder := zorder m |}.

(** Lines 141-143: the loop over [zip(balls, ball_markers)], which stops at
    the end of the shorter list.  A call that raises ends the loop; the
    objects it leaves half updated are not kept here. *)
Fixpoint update_each (current_time : Q) (siteswap : list Z) (period : Z)
    (bs : list Ball) (ms : list Marker) : result (list Ball * list Marker) :=
  match bs, ms with
  | b :: bs', m :: ms' =>
      b' <- update b current_time siteswap period ;;
      r <- update_each current_time siteswap period bs' ms' ;;
      Ok (b' :: fst r, set_center m (pos b') :: snd r)
  | _, _ => Ok (bs, ms)
  end.

(** [update_frame]; the markers of the result are the value it returns. *)
Definition update_frame (p : Program) (s : Sim) : result Sim :=
  let sim_time := sim_time s + dt in
  r <- update_each sim_time (siteswap p) (period p) (sim_balls s) (ball_markers s) ;;
  Ok {| sim_time := sim_time; sim_balls := fst r; ball_markers := snd r |}.

(** [n] consecutive frames. *)
Fixpoint frames (n : nat) (p : Program) (s : Sim) : result Sim :=
  match n with
  | O => Ok s
  | S k =>
      s' <- update_frame p s ;;
      frames k p s'
  end.

(** Lines 93-135: the whole start of the program. *)
Definition start (siteswap_input : string) : result (Program * Sim) :=
  p <- initialise siteswap_input ;;
  s <- setup p ;;
  Ok (p, s).

(** A float that is a number. *)
Definition finite (v : num) : Prop := exists q, v = Fin q.

Definition finite_pos (p : num * num) : Prop := finite (fst p) /\ finite (snd p).

(** ** Runs of the state machine *)

(** The balls that a run can hold: a freshly created ball, then any number
    of [update] calls at arbitrary times, all with the pattern [sw] and its
    length, as [update_frame] passes them. *)
Inductive reachable (sw : list Z) : Ball -> Prop :=
| reach_init (i : Z) (t0 : Q) (h : Hand) : reachable sw (Ball_init i t0 h)
| reach_update (b b' : Ball) (t : Q) :
    reachable sw b ->
    update b t sw (period_of sw) = Ok b' ->
    reachable sw b'.

(** Any number of consecutive calls, at arbitrary times. *)
Inductive updates (sw : list Z) : Ball -> Ball -> Prop :=
| upd_refl (b : Ball) : updates sw b b
| upd_step (b b' b'' : Ball) (t : Q) :
    updates sw b b' ->
    update b' t sw (period_of sw) = Ok b'' ->
    updates sw b b''.

(** The updates of one flight: calls that leave the ball in the air. *)
Inductive airborne (sw : list Z) : Ball -> Ball -> Prop :=
| air_refl (b : Ball) : airborne sw b b
| air_step (b b' b'' : Ball) (t : Q) :
    airborne sw b b' ->
    update b' t sw (period_of sw) = Ok b'' ->
    state b'' = in_air ->
    airborne sw b b''.

(** What every flight record written by [throw] satisfies. *)
Definition launched (sw : list Z) (b : Ball) : Prop :=
  forall f, flight b = Some f ->
    catch_time f = start_time f + flight_time f /\
    exists v, In v sw /\ flight_time f = inject_Z v * T_beat.

Definition released_late (b : Ball) : Prop :=
  state b = in_air ->
  exists f, flight b = Some f /\ next_throw_time b + throw_delay <= start_time f.

(** What a held ball satisfies in a run. *)
Definition at_rest (b : Ball) : Prop :=
  state b = in_hand ->
  pos b = array (hand_positions (hand b)) /\
  forall f, flight b = Some f ->
    hand b = dest_hand f /\ next_throw_time b = catch_time f.

(** What the balls of the animation satisfy at the clock time [now]: the
    position is a pair of numbers, no flight started after [now], and the
    horizontal velocity is a number unless the flight time is 0. *)
Definition flying_ok (now : Q) (b : Ball) : Prop :=
  finite_pos (pos b) /\
  forall f, flight b = Some f ->
    start_time f <= now /\ (flight_time f == 0 \/ finite (vx f)).

Definition frame_inv (p : Program) (s : Sim) : Prop :=
  Forall (fun b => reachable (siteswap p) b /\ flying_ok (sim_time s) b)
    (sim_balls s) /\
  List.length (ball_markers s) = List.length (sim_balls s).


(** [s.isascii()]: every character of the input is below 128.  Among
    such characters the digits of [str.isdigit] are the ten characters
    '0' to '9', and [int] is defined on each of them. *)
Definition isascii (s : string) : bool :=
  forallb (fun c => (nat_of_ascii c <? 128)%nat) (list_ascii_of_string s).

(** Sizes at which no operation of [Ball] leaves the floats with an
    OverflowError: an int that [int * float] can convert, and a time whose
    quotient by [T_beat] and whose square are still floats. *)
Definition int_fits (v : Z) : Prop := (Z.abs v <= 2 ^ 1000)%Z.

Definition time_fits (x : Q) : Prop := Qabs x <= inject_Z (2 ^ 500).

Definition ball_fits (b : Ball) : Prop :=
  time_fits (next_throw_time b) /\
  forall f, flight b = Some f -> time_fits (start_time f).

(** ** Facts about the Python primitives *)

Lemma Qlt_bool_true (x y : Q) : Py.Qlt_bool x y = true <-> x < y.
Proof.
  unfold Py.Qlt_bool.
  destruct (Qcompare_spec x y) as [E | H | H]; split; intro K;
    try reflexivity; try discriminate; try assumption.
  - rewrite E in K. exfalso. apply (Qlt_irrefl y). assumption.
  - exfalso. apply (Qlt_irrefl x). apply (Qlt_trans _ y); assumption.
Qed.

Lemma Qlt_bool_false (x y : Q) : Py.Qlt_bool x y = false <-> y <= x.
Proof.
  split; intro K.
  - apply Qnot_lt_le. intro H. apply Qlt_bool_true in H. congruence.
  - destruct (Py.Qlt_bool x y) eqn:E; [ | reflexivity ].
    apply Qlt_bool_true in E. exfalso. apply (Qlt_not_le _ _ E). assumption.
Qed.

Lemma Qle_bool_false (x y : Q) : Qle_bool x y = false <-> ~ x <= y.
Proof.
  rewrite <- Qle_bool_iff. destruct (Qle_bool x y); split; intro K;
    congruence.
Qed.

(** [round] returns an integer at distance at most one half. *)
Lemma round_nearest (x : Q) : Qabs (inject_Z (Py.round x) - x) <= 1 # 2.
Proof.
  pose proof (Qfloor_le x) as Hlo.
  pose proof (Qlt_floor x) as Hhi.
  rewrite inject_Z_plus in Hhi. change (inject_Z 1) with 1 in Hhi.
  apply Qabs_Qle_condition.
  unfold Py.round.
  destruct (Qcompare_spec (x - inject_Z (Qfloor x)) (1 # 2)) as [E | H | H];
    [ destruct (Z.even (Qfloor x)) | | ];
    rewrite ?inject_Z_plus; change (inject_Z 1) with 1; split; lra.
Qed.

Lemma round_comp (x y : Q) : x == y -> Py.round x = Py.round y.
Proof.
  intro E. unfold Py.round.
  rewrite (Qfloor_comp _ _ E).
  assert (K : Qcompare (x - inject_Z (Qfloor y)) (1 # 2)
              = Qcompare (y - inject_Z (Qfloor y)) (1 # 2))
    by (rewrite E; reflexivity).
  rewrite K. reflexivity.
Qed.

Lemma getitem_in_range {A} (l : list A) (i : Z) :
  (0 <= i < Z.of_nat (List.length l))%Z ->
  exists a, Py.getitem l i = Ok a /\ nth_error l (Z.to_nat i) = Some a.
Proof.
  intros [Hlo Hhi]. unfold Py.getitem. cbv zeta.
  assert (K1 : (i <? 0)%Z = false) by (apply Z.ltb_ge; lia).
  assert (K2 : (Z.of_nat (List.length l) <=? i)%Z = false)
    by (apply Z.leb_gt; lia).
  rewrite K1, K1, K2. simpl.
  destruct (nth_error l (Z.to_nat i)) as [a | ] eqn:E.
  - exists a. split; reflexivity.
  - apply nth_error_None in E. lia.
Qed.

(** [int] of the true quotient of two ints, the divisor positive, is the
    quotient that truncates. *)
Lemma int_truediv (a b : Z) :
  (0 < b)%Z -> Py.int (inject_Z a / inject_Z b) = Z.quot a b.
Proof.
  intro Hb. destruct b as [ | p | p]; try lia.
  unfold Py.int, Qdiv, Qinv, Qmult, inject_Z. simpl.
  f_equal. lia.
Qed.

(** ** Facts about one call *)

Section OneCall.

Variable sw : list Z.
Hypothesis sw_nonempty : sw <> [].

Lemma period_pos : (0 < period_of sw)%Z.
Proof.
  unfold period_of. destruct sw as [ | x l]; [ congruence | simpl; lia ].
Qed.

(** With a non-empty pattern and its length, the lookup of lines 38-39
    raises nothing. *)
Lemma throw_value_ok (b : Ball) :
  exists v, throw_value_of b sw (period_of sw) = Ok v /\
            nth_error sw (Z.to_nat (beat_of b mod period_of sw)) = Some v /\
            In v sw.
Proof.
  pose proof period_pos as Hp.
  unfold throw_value_of, Py.mod_.
  destruct (Z.eqb_spec (period_of sw) 0) as [K | _]; [ lia | ].
  simpl.
  destruct (getitem_in_range sw (beat_of b mod period_of sw)) as (v & Hg & Hn).
  - apply Z.mod_pos_bound. exact Hp.
  - exists v. repeat split; try assumption.
    apply nth_error_In with (n := Z.to_nat (beat_of b mod period_of sw)).
    assumption.
Qed.

Lemma throw_ok (b : Ball) (t : Q) :
  exists v, throw_value_of b sw (period_of sw) = Ok v /\
            throw b t sw (period_of sw) = Ok (launch b t v).
Proof.
  destruct (throw_value_ok b) as (v & Hv & _).
  exists v. split; [ assumption | ].
  unfold throw. rewrite Hv. reflexivity.
Qed.

(** The three ways a call can end. *)
Lemma update_cases (b b' : Ball) (t : Q) :
  update b t sw (period_of sw) = Ok b' ->
  (state b = in_hand /\ ~ next_throw_time b + throw_delay <= t /\
   b' = set_pos b (array (hand_positions (hand b))))
  \/ (state b = in_hand /\ next_throw_time b + throw_delay <= t /\
      exists v, throw_value_of b sw (period_of sw) = Ok v /\ b' = launch b t v)
  \/ (state b = in_air /\
      exists f, flight b = Some f /\
        ((t - start_time f < flight_time f /\
          b' = set_pos b (trajectory f (t - start_time f)))
         \/ (flight_time f <= t - start_time f /\ b' = caught b f))).
Proof.
  unfold update. intro H.
  destruct (state b) eqn:Es.
  - destruct (Qle_bool (next_throw_time b + throw_delay) t) eqn:Ec.
    + right. left. apply Qle_bool_iff in Ec.
      split; [ reflexivity | split; [ assumption | ] ].
      destruct (throw_ok b t) as (v & Hv & Ht).
      exists v. split; [ assumption | congruence ].
    + left. apply Qle_bool_false in Ec.
      split; [ reflexivity | split; [ assumption | congruence ] ].
  - right. right. split; [ reflexivity | ].
    destruct (flight b) as [f | ]; [ | discriminate ].
    exists f. split; [ reflexivity | ].
    destruct (Py.Qlt_bool (t - start_time f) (flight_time f)) eqn:Ec.
    + left. apply Qlt_bool_true in Ec. split; [ assumption | congruence ].
    + right. apply Qlt_bool_false in Ec. split; [ assumption | congruence ].
Qed.

Lemma update_launched (b b' : Ball) (t : Q) :
  launched sw b -> update b t sw (period_of sw) = Ok b' -> launched sw b'.
Proof.
  intros Hl Hu.
  destruct (update_cases b b' t Hu)
    as [(_ & _ & ->) | [(_ & _ & v & Hv & ->) | (_ & f & Hf & [(_ & ->) | (_ & ->)])]];
    try exact Hl.
  intros f' Hf'. simpl in Hf'. injection Hf' as <-. simpl.
  split; [ reflexivity | ].
  exists v. split; [ | reflexivity ].
  destruct (throw_value_ok b) as (v' & Hv' & _ & Hin). congruence.
Qed.

Lemma update_released_late (b b' : Ball) (t : Q) :
  released_late b -> update b t sw (period_of sw) = Ok b' -> released_late b'.
Proof.
  intros Hr Hu.
  destruct (update_cases b b' t Hu)
    as [(Es & _ & ->) | [(_ & Hc & v & Hv & ->) | (Es & f & Hf & [(_ & ->) | (_ & ->)])]];
    unfold released_late; simpl; intro Ha; try congruence.
  - eexists. split; [ reflexivity | ]. simpl. exact Hc.
  - destruct (Hr Es) as (f' & Hf' & Hle). exists f'. split; assumption.
Qed.

Lemma reachable_launched (b : Ball) : reachable sw b -> launched sw b.
Proof.
  induction 1 as [i t0 h | b b' t _ IH Hu].
  - intros f Hf. discriminate.
  - exact (update_launched b b' t IH Hu).
Qed.

Lemma reachable_released_late (b : Ball) : reachable sw b -> released_late b.
Proof.
  induction 1 as [i t0 h | b b' t _ IH Hu].
  - intro Ha. discriminate.
  - exact (update_released_late b b' t IH Hu).
Qed.

Lemma reachable_in_air (b : Ball) :
  reachable sw b -> state b = in_air -> exists f, flight b = Some f.
Proof.
  intros Hr Ha. destruct (reachable_released_late b Hr Ha) as (f & Hf & _).
  exists f. assumption.
Qed.

(** On a reachable ball one more call raises nothing. *)
Lemma reachable_update_ok (b : Ball) (t : Q) :
  reachable sw b -> exists b', update b t sw (period_of sw) = Ok b'.
Proof.
  intro Hr. unfold update.
  destruct (state b) eqn:Es.
  - destruct (Qle_bool (next_throw_time b + throw_delay) t).
    + destruct (throw_ok b t) as (v & _ & Ht). eexists. exact Ht.
    + eexists. reflexivity.
  - destruct (reachable_in_air b Hr Es) as (f & ->).
    destruct (Py.Qlt_bool (t - start_time f) (flight_time f));
      eexists; reflexivity.
Qed.

(** During one flight the hand and the flight record stay as launched. *)
Lemma airborne_keeps (b b' : Ball) :
  airborne sw b b' -> state b = in_air ->
  state b' = in_air /\ hand b' = hand b /\ flight b' = flight b /\
  next_throw_time b' = next_throw_time b.
Proof.
  induction 1 as [b | b b' b'' t _ IH Hu Ha]; intro Hs.
  - repeat split; assumption.
  - destruct (IH Hs) as (Es & Eh & Ef & En).
    destruct (update_cases b' b'' t Hu)
      as [(K & _) | [(K & _) | (_ & f & Hf & [(_ & ->) | (_ & ->)])]];
      try congruence.
    + simpl. repeat split; assumption.
    + simpl in Ha. discriminate.
Qed.

End OneCall.

(** ** The properties *)

Local Open Scope string_scope.

(** With positive throw values the divisor of line 58 is positive and the
    horizontal velocity is a finite number. *)
Lemma launch_divisor_pos (b : Ball) (t : Q) (v : Z) :
  (0 < v)%Z ->
  forall f, flight (launch b t v) = Some f ->
  0 < flight_time f /\ exists q, vx f = Fin q.
Proof.
  intros Hv f Hf. simpl in Hf. injection Hf as <-. simpl.
  assert (Hpos : 0 < inject_Z v * T_beat).
  { apply Qmult_lt_0_compat; [ | reflexivity ].
    change 0 with (inject_Z 0). rewrite <- Zlt_Qlt. assumption. }
  split; [ assumption | ].
  unfold np_div.
  destruct (Qeq_bool (inject_Z v * T_beat) 0) eqn:E.
  - apply Qeq_bool_iff in E. rewrite E in Hpos.
    exfalso. apply (Qlt_irrefl 0). assumption.
  - eexists. reflexivity.
Qed.

(** C1.  The division of line 58 does meet a zero divisor.  With the
    pattern "40" two balls are created; the second one is due at beat 1,
    whose throw value is 0, so at its release (the first frame time past
    0.75) [flight_time] is [0 * T_beat = 0] and the quotient
    [(dest_pos[0] - source_pos[0]) / flight_time] is [0.0 / 0.0], NaN. *)
Theorem C1_pattern_40_zero_divisor :
  exists p b0 b1 b1' f,
    initialise "40" = Ok p /\
    balls p = [b0; b1] /\
    reachable (siteswap p) b1 /\
    update b1 (19 # 25) (siteswap p) (period p) = Ok b1' /\
    flight b1' = Some f /\
    flight_time f == 0 /\
    vx f = NaN.
Proof.
  do 5 eexists.
  split; [ reflexivity | ].
  split; [ reflexivity | ].
  split; [ apply reach_init | ].
  split; [ reflexivity | ].
  split; [ reflexivity | ].
  split; reflexivity.
Qed.

(** C2, as stated, fails: an input without digits does not end in an
    error named EmptyPatternError. *)
Lemma C2_no_EmptyPatternError :
  period_of (parse "") = 0%Z /\ initialise "" <> Err "EmptyPatternError".
Proof.
  split; [ reflexivity | ].
  vm_compute. discriminate.
Qed.

(** C2, amended.  When the input has no digit, the period is 0 and the
    division of line 98 raises ZeroDivisionError; the loop that creates
    the balls comes after it, so the program ends without a single ball. *)
Theorem C2_empty_pattern_raises (siteswap_input : string) :
  period_of (parse siteswap_input) = 0%Z ->
  initialise siteswap_input = Err Py.ZeroDivisionError /\
  forall p, initialise siteswap_input <> Ok p.
Proof.
  intro Hp.
  assert (E : initialise siteswap_input = Err Py.ZeroDivisionError).
  { unfold initialise, num_balls_of, Py.truediv. rewrite Hp. reflexivity. }
  split; [ exact E | ].
  intros p K. rewrite E in K. discriminate.
Qed.

Lemma C2_empty_pattern_raises_witness :
  period_of (parse "a b-c") = 0%Z /\
  initialise "a b-c" = Err Py.ZeroDivisionError /\
  forall p, initialise "a b-c" <> Ok p.
Proof.
  split; [ reflexivity | ].
  apply (C2_empty_pattern_raises "a b-c"). reflexivity.
Defined.

(** C3.  A held ball leaves the hand in a call exactly when
    [current_time >= next_throw_time + throw_delay]; otherwise the call
    puts it at its hand's position and changes neither its state, nor its
    hand, nor its scheduled throw time. *)
Theorem C3_held_transition (sw : list Z) (b : Ball) (current_time : Q) :
  sw <> [] ->
  state b = in_hand ->
  exists b',
    update b current_time sw (period_of sw) = Ok b' /\
    (state b' = in_air <-> next_throw_time b + throw_delay <= current_time) /\
    (~ next_throw_time b + throw_delay <= current_time ->
     pos b' = array (hand_positions (hand b)) /\
     state b' = in_hand /\
     hand b' = hand b /\
     next_throw_time b' = next_throw_time b).
Proof.
  intros Hne Hs. unfold update. rewrite Hs.
  destruct (Qle_bool (next_throw_time b + throw_delay) current_time) eqn:Ec.
  - apply Qle_bool_iff in Ec.
    destruct (throw_ok sw Hne b current_time) as (v & _ & Ht).
    exists (launch b current_time v). split; [ exact Ht | ].
    split; [ split; intro; [ assumption | reflexivity ] | ].
    intro K. contradiction.
  - apply Qle_bool_false in Ec.
    eexists. split; [ reflexivity | ]. simpl.
    split.
    + split; intro K; [ congruence | contradiction ].
    + intros _. repeat split; assumption.
Qed.

Lemma C3_held_transition_witness :
  exists b',
    update (Ball_init 1 (1 # 2) L) (7 # 10) [3; 3; 3]%Z (period_of [3; 3; 3]%Z)
      = Ok b' /\
    (state b' = in_air <-> (1 # 2) + throw_delay <= 7 # 10) /\
    (~ (1 # 2) + throw_delay <= 7 # 10 ->
     pos b' = array (hand_positions L) /\
     state b' = in_hand /\
     hand b' = L /\
     next_throw_time b' = 1 # 2).
Proof.
  apply (C3_held_transition [3; 3; 3]%Z (Ball_init 1 (1 # 2) L) (7 # 10)).
  - discriminate.
  - reflexivity.
Defined.

(** C7.  With at least one digit nothing is raised, and the number of
    balls is the quotient of the sum of the throw values by the period,
    truncated; when the period divides the sum, the sum is the period
    times the number of balls. *)
Theorem C7_num_balls_truncates (siteswap_input : string) :
  parse siteswap_input <> [] ->
  exists p,
    initialise siteswap_input = Ok p /\
    siteswap p = parse siteswap_input /\
    period p = Z.of_nat (List.length (siteswap p)) /\
    num_balls p = Z.quot (Py.sum (siteswap p)) (period p) /\
    ((Py.sum (siteswap p) mod period p = 0)%Z ->
     Py.sum (siteswap p) = (period p * num_balls p)%Z).
Proof.
  intro Hne.
  pose proof (period_pos _ Hne) as Hp.
  unfold initialise, num_balls_of, Py.truediv.
  destruct (Z.eqb_spec (period_of (parse siteswap_input)) 0) as [K | _];
    [ lia | ].
  eexists. split; [ reflexivity | ]. simpl.
  rewrite (int_truediv _ _ Hp).
  repeat split.
  intro Hd.
  apply Z.mod_divide in Hd; [ | lia ].
  destruct Hd as [k Hk]. rewrite Hk.
  rewrite Z.quot_mul; lia.
Qed.

Lemma C7_num_balls_truncates_witness :
  exists p,
    initialise "43" = Ok p /\
    siteswap p = parse "43" /\
    period p = Z.of_nat (List.length (siteswap p)) /\
    num_balls p = Z.quot (Py.sum (siteswap p)) (period p) /\
    ((Py.sum (siteswap p) mod period p = 0)%Z ->
     Py.sum (siteswap p) = (period p * num_balls p)%Z).
Proof.
  apply (C7_num_balls_truncates "43"). discriminate.
Defined.

(** "43" has sum 7 and period 2: three balls and no error. *)
Example num_balls_43 :
  exists p, initialise "43" = Ok p /\ num_balls p = 3%Z.
Proof. eexists. split; reflexivity. Qed.

(** C4.  A throw looks up its value at the beat nearest to the scheduled
    throw time, and the flight lasts that many beats: whatever the time of
    the release, and for any ball scheduled at the same time. *)
Theorem C4_flight_time_of_scheduled_beat (sw : list Z) (b : Ball) (current_time : Q) :
  sw <> [] ->
  exists v b' f,
    throw b current_time sw (period_of sw) = Ok b' /\
    beat_of b = Py.round (next_throw_time b / T_beat) /\
    Qabs (inject_Z (beat_of b) - next_throw_time b / T_beat) <= 1 # 2 /\
    nth_error sw (Z.to_nat (beat_of b mod period_of sw)) = Some v /\
    flight b' = Some f /\
    flight_time f = inject_Z v * T_beat /\
    forall b2 t2,
      next_throw_time b2 == next_throw_time b ->
      exists b2' f2,
        throw b2 t2 sw (period_of sw) = Ok b2' /\
        flight b2' = Some f2 /\
        flight_time f2 = flight_time f.
Proof.
  intro Hne.
  destruct (throw_value_ok sw Hne b) as (v & Hv & Hn & _).
  exists v, (launch b current_time v). eexists.
  split; [ unfold throw; rewrite Hv; reflexivity | ].
  split; [ reflexivity | ].
  split; [ apply round_nearest | ].
  split; [ exact Hn | ].
  split; [ reflexivity | ].
  split; [ reflexivity | ].
  intros b2 t2 E.
  assert (Hb : beat_of b2 = beat_of b).
  { unfold beat_of. apply round_comp. rewrite E. reflexivity. }
  exists (launch b2 t2 v). eexists.
  split; [ | split; reflexivity ].
  unfold throw, throw_value_of. rewrite Hb.
  unfold throw_value_of in Hv. rewrite Hv. reflexivity.
Qed.

Lemma C4_flight_time_of_scheduled_beat_witness :
  exists v b' f,
    throw (Ball_init 0 (3 # 4) R) 1 [5; 1]%Z (period_of [5; 1]%Z) = Ok b' /\
    beat_of (Ball_init 0 (3 # 4) R) = Py.round ((3 # 4) / T_beat) /\
    Qabs (inject_Z (beat_of (Ball_init 0 (3 # 4) R)) - (3 # 4) / T_beat) <= 1 # 2 /\
    nth_error [5; 1]%Z
      (Z.to_nat (beat_of (Ball_init 0 (3 # 4) R) mod period_of [5; 1]%Z)) = Some v /\
    flight b' = Some f /\
    flight_time f = inject_Z v * T_beat /\
    forall b2 t2,
      next_throw_time b2 == 3 # 4 ->
      exists b2' f2,
        throw b2 t2 [5; 1]%Z (period_of [5; 1]%Z) = Ok b2' /\
        flight b2' = Some f2 /\
        flight_time f2 = flight_time f.
Proof.
  apply (C4_flight_time_of_scheduled_beat [5; 1]%Z (Ball_init 0 (3 # 4) R) 1).
  discriminate.
Defined.

(** The beat is rounded, not truncated: a ball scheduled at 0.75 is at
    beat 2, and a tie goes to the even beat. *)
Example beat_of_rounds :
  beat_of (Ball_init 0 (3 # 4) R) = 2%Z /\
  Py.int ((3 # 4) / T_beat) = 1%Z /\
  beat_of (Ball_init 0 (5 # 4) R) = 2%Z.
Proof. repeat split. Qed.

Lemma dest_of_odd (h : Hand) (v : Z) : Z.odd v = true -> dest_of h v = opposite h.
Proof.
  intro Ho. unfold dest_of. rewrite Zmod_odd, Ho. reflexivity.
Qed.

Lemma dest_of_even (h : Hand) (v : Z) : Z.even v = true -> dest_of h v = h.
Proof.
  intro He. unfold dest_of. rewrite Zmod_odd, <- Z.negb_even, He. reflexivity.
Qed.

(** C5.  A throw aims at the other hand when its value is odd (from R to
    L and from L to R, never the hand that throws) and at the same hand
    when it is even; the catch that ends the flight gives the ball to the
    hand aimed at, so after an even throw the ball is back in the hand it
    left, which it kept as its hand during the whole flight, and after an
    odd throw it is in the other hand. *)
Theorem C5_destination_hand (sw : list Z) (b b1 : Ball) (current_time : Q) :
  throw b current_time sw (period_of sw) = Ok b1 ->
  exists v f,
    throw_value_of b sw (period_of sw) = Ok v /\
    state b1 = in_air /\
    flight b1 = Some f /\
    (Z.odd v = true ->
     dest_hand f = opposite (hand b) /\
     dest_hand f <> hand b /\
     (hand b = R -> dest_hand f = L) /\
     (hand b = L -> dest_hand f = R)) /\
    (Z.even v = true -> dest_hand f = hand b) /\
    forall b2 b3 t,
      airborne sw b1 b2 ->
      update b2 t sw (period_of sw) = Ok b3 ->
      state b3 = in_hand ->
      hand b3 = dest_hand f /\
      (Z.even v = true -> hand b2 = hand b /\ hand b3 = hand b) /\
      (Z.odd v = true -> hand b2 = hand b /\ hand b3 <> hand b).
Proof.
  unfold throw. intro Ht.
  destruct (throw_value_of b sw (period_of sw)) as [v | e] eqn:Hv;
    [ | discriminate ].
  simpl in Ht. injection Ht as <-.
  assert (Hne : sw <> []) by (intros ->; discriminate).
  assert (Hodd : Z.odd v = true ->
                 dest_of (hand b) v = opposite (hand b) /\
                 dest_of (hand b) v <> hand b /\
                 (hand b = R -> dest_of (hand b) v = L) /\
                 (hand b = L -> dest_of (hand b) v = R)).
  { intro Ho. rewrite (dest_of_odd _ _ Ho).
    destruct (hand b); repeat split; intro K; try reflexivity; discriminate. }
  exists v. eexists.
  split; [ reflexivity | ].
  split; [ reflexivity | ].
  split; [ reflexivity | ].
  split; [ exact Hodd | ].
  split; [ apply dest_of_even | ].
  intros b2 b3 t Hair Hu Hs. simpl.
  destruct (airborne_keeps sw Hne _ _ Hair eq_refl) as (Es & Eh & Ef & _).
  simpl in Eh, Ef.
  destruct (update_cases sw Hne b2 b3 t Hu)
    as [(K & _) | [(K & _) | (_ & f & Hf & [(_ & ->) | (_ & ->)])]];
    try congruence.
  - simpl in Hs. congruence.
  - rewrite Ef in Hf. injection Hf as <-. simpl.
    split; [ reflexivity | ].
    split.
    + intro He. rewrite (dest_of_even _ _ He).
      split; [ exact Eh | reflexivity ].
    + intro Ho. split; [ exact Eh | ].
      destruct (Hodd Ho) as (_ & Hd & _). exact Hd.
Qed.

Lemma C5_destination_hand_witness :
  (exists v f,
     throw_value_of (Ball_init 0 0 R) [4; 0]%Z (period_of [4; 0]%Z) = Ok v /\
     state (launch (Ball_init 0 0 R) (1 # 4) 4) = in_air /\
     flight (launch (Ball_init 0 0 R) (1 # 4) 4) = Some f /\
     (Z.odd v = true ->
      dest_hand f = opposite R /\
      dest_hand f <> R /\
      (R = R -> dest_hand f = L) /\
      (R = L -> dest_hand f = R)) /\
     (Z.even v = true -> dest_hand f = R) /\
     forall b2 b3 t,
       airborne [4; 0]%Z (launch (Ball_init 0 0 R) (1 # 4) 4) b2 ->
       update b2 t [4; 0]%Z (period_of [4; 0]%Z) = Ok b3 ->
       state b3 = in_hand ->
       hand b3 = dest_hand f /\
       (Z.even v = true -> hand b2 = R /\ hand b3 = R) /\
       (Z.odd v = true -> hand b2 = R /\ hand b3 <> R)) /\
  (exists f,
     throw_value_of (Ball_init 1 (1 # 2) L) [3; 3; 3]%Z (period_of [3; 3; 3]%Z)
       = Ok 3%Z /\
     Z.odd 3 = true /\
     flight (launch (Ball_init 1 (1 # 2) L) (3 # 4) 3) = Some f /\
     dest_hand f = R /\
     dest_hand f <> L /\
     forall b2 b3 t,
       airborne [3; 3; 3]%Z (launch (Ball_init 1 (1 # 2) L) (3 # 4) 3) b2 ->
       update b2 t [3; 3; 3]%Z (period_of [3; 3; 3]%Z) = Ok b3 ->
       state b3 = in_hand ->
       hand b2 = L /\ hand b3 = R).
Proof.
  split.
  - apply (C5_destination_hand [4; 0]%Z (Ball_init 0 0 R)
             (launch (Ball_init 0 0 R) (1 # 4) 4) (1 # 4)).
    reflexivity.
  - destruct (C5_destination_hand [3; 3; 3]%Z (Ball_init 1 (1 # 2) L)
                (launch (Ball_init 1 (1 # 2) L) (3 # 4) 3) (3 # 4) eq_refl)
      as (v & f & Hv & _ & Hf & Hodd & _ & Hcycle).
    assert (Ev : v = 3%Z) by (vm_compute in Hv; congruence).
    subst v.
    destruct (Hodd eq_refl) as (_ & Hneq & _ & HL).
    exists f.
    split; [ reflexivity | ].
    split; [ reflexivity | ].
    split; [ exact Hf | ].
    split; [ apply HL; reflexivity | ].
    split; [ exact Hneq | ].
    intros b2 b3 t Hair Hu Hs.
    destruct (Hcycle b2 b3 t Hair Hu Hs) as (Hd & _ & Ho).
    destruct (Ho eq_refl) as (H2 & _).
    split; [ exact H2 | ].
    rewrite Hd. apply HL. reflexivity.
Defined.

(** C6.  A ball in the air whose flight time has elapsed is caught by the
    call: it is held by the hand aimed at, at that hand's position, and
    its next throw is scheduled at the launch time plus the flight time,
    whatever the time of the call. *)
Theorem C6_catch (sw : list Z) (b : Ball) (current_time : Q) :
  sw <> [] ->
  reachable sw b ->
  state b = in_air ->
  exists f,
    flight b = Some f /\
    (flight_time f <= current_time - start_time f ->
     exists b',
       update b current_time sw (period_of sw) = Ok b' /\
       state b' = in_hand /\
       hand b' = dest_hand f /\
       pos b' = array (hand_positions (dest_hand f)) /\
       next_throw_time b' = start_time f + flight_time f).
Proof.
  intros Hne Hr Hs.
  destruct (reachable_in_air sw Hne b Hr Hs) as (f & Hf).
  exists f. split; [ exact Hf | ].
  intro Hel. exists (caught b f).
  split.
  - unfold update. rewrite Hs, Hf.
    apply Qlt_bool_false in Hel. rewrite Hel. reflexivity.
  - simpl. repeat split.
    destruct (reachable_launched sw Hne b Hr f Hf) as (Hc & _). exact Hc.
Qed.

Lemma C6_catch_witness :
  exists f,
    flight (launch (Ball_init 0 0 R) (1 # 4) 3) = Some f /\
    (flight_time f <= 2 - start_time f ->
     exists b',
       update (launch (Ball_init 0 0 R) (1 # 4) 3) 2 [3]%Z (period_of [3]%Z)
         = Ok b' /\
       state b' = in_hand /\
       hand b' = dest_hand f /\
       pos b' = array (hand_positions (dest_hand f)) /\
       next_throw_time b' = start_time f + flight_time f).
Proof.
  apply (C6_catch [3]%Z (launch (Ball_init 0 0 R) (1 # 4) 3) 2).
  - discriminate.
  - apply (reach_update [3]%Z (Ball_init 0 0 R) _ (1 # 4)).
    + apply reach_init.
    + reflexivity.
  - reflexivity.
Defined.

(** C8.  In exact arithmetic, a throw whose flight time [T] is positive
    has the horizontal velocity [(x_dest - x_source) / T] and the vertical
    velocity [0.5 * g * T]; it starts at height 0, and at [T] after the
    launch its parabola is at the destination hand's abscissa, at height
    0 again. *)
Theorem C8_boundary_conditions (sw : list Z) (b b1 : Ball) (current_time : Q)
    (f : Flight) :
  throw b current_time sw (period_of sw) = Ok b1 ->
  flight b1 = Some f ->
  0 < flight_time f ->
  num_eq (vx f)
    (Fin ((fst (hand_positions (dest_hand f)) - fst (hand_positions (hand b)))
          / flight_time f)) /\
  vy f == (1 # 2) * g * flight_time f /\
  start_pos f = hand_positions (hand b) /\
  snd (start_pos f) == 0 /\
  exists x y,
    trajectory f (flight_time f) = (Fin x, Fin y) /\
    x == fst (hand_positions (dest_hand f)) /\
    y == 0.
Proof.
  unfold throw. intros Ht Hf Hpos.
  destruct (throw_value_of b sw (period_of sw)) as [v | e]; [ | discriminate ].
  simpl in Ht. injection Ht as <-.
  simpl in Hf. injection Hf as <-.
  simpl in Hpos.
  assert (Hnz : ~ inject_Z v * T_beat == 0).
  { intro E. rewrite E in Hpos. apply (Qlt_irrefl 0). assumption. }
  assert (Hb : Qeq_bool (inject_Z v * T_beat) 0 = false).
  { destruct (Qeq_bool (inject_Z v * T_beat) 0) eqn:E; [ | reflexivity ].
    apply Qeq_bool_iff in E. contradiction. }
  unfold trajectory. simpl. unfold np_div. rewrite Hb. simpl.
  split; [ reflexivity | ].
  split; [ reflexivity | ].
  split; [ reflexivity | ].
  split; [ destruct (hand b); reflexivity | ].
  eexists. eexists.
  split; [ reflexivity | ].
  split.
  - field. split; [ unfold T_beat; lra | ].
    intro E. apply Hnz. rewrite E. ring.
  - destruct (hand b); simpl; ring.
Qed.

Lemma C8_boundary_conditions_witness :
  exists f,
    flight (launch (Ball_init 0 0 R) (1 # 4) 3) = Some f /\
    num_eq (vx f)
      (Fin ((fst (hand_positions (dest_hand f)) - fst (hand_positions R))
            / flight_time f)) /\
    vy f == (1 # 2) * g * flight_time f /\
    start_pos f = hand_positions R /\
    snd (start_pos f) == 0 /\
    exists x y,
      trajectory f (flight_time f) = (Fin x, Fin y) /\
      x == fst (hand_positions (dest_hand f)) /\
      y == 0.
Proof.
  eexists. split; [ reflexivity | ].
  apply (C8_boundary_conditions [3; 3; 3]%Z (Ball_init 0 0 R)
           (launch (Ball_init 0 0 R) (1 # 4) 3) (1 # 4)).
  - reflexivity.
  - reflexivity.
  - reflexivity.
Defined.

(** One call never moves the scheduled throw time backward, and moves it
    only in a catch. *)
Lemma update_next_throw_time (sw : list Z) (b b' : Ball) (t : Q) :
  sw <> [] ->
  Forall (fun v => 0 <= v)%Z sw ->
  reachable sw b ->
  update b t sw (period_of sw) = Ok b' ->
  next_throw_time b <= next_throw_time b' /\
  (next_throw_time b' = next_throw_time b \/
   state b = in_air /\ state b' = in_hand /\
   exists f, flight b = Some f /\
             next_throw_time b' = start_time f + flight_time f).
Proof.
  intros Hne Hnn Hr Hu.
  destruct (update_cases sw Hne b b' t Hu)
    as [(_ & _ & ->) | [(_ & _ & v & _ & ->) | (Es & f & Hf & [(_ & ->) | (_ & ->)])]];
    simpl; try (split; [ apply Qle_refl | left; reflexivity ]).
  destruct (reachable_launched sw Hne b Hr f Hf) as (Hc & v & Hin & Hft).
  destruct (reachable_released_late sw Hne b Hr Es) as (f' & Hf' & Hle).
  assert (f' = f) by congruence. subst f'.
  split.
  - rewrite Hc, Hft.
    assert (Hv : 0 <= inject_Z v * T_beat).
    { apply Qmult_le_0_compat; [ | discriminate ].
      change 0 with (inject_Z 0). rewrite <- Zle_Qle.
      rewrite Forall_forall in Hnn. apply Hnn. assumption. }
    unfold throw_delay in Hle. lra.
  - right. repeat split; try assumption.
    exists f. split; [ assumption | exact Hc ].
Qed.

Lemma updates_reachable (sw : list Z) (b b' : Ball) :
  reachable sw b -> updates sw b b' -> reachable sw b'.
Proof.
  intros Hr. induction 1 as [b | b b' b'' t _ IH Hu].
  - assumption.
  - apply (reach_update sw b' b'' t); [ apply IH; assumption | assumption ].
Qed.

(** C9.  With non-negative throw values (the release delay is 0.25), the
    scheduled throw time of a ball never decreases, over any sequence of
    calls at any times; a call changes it only when it catches the ball,
    and then to the launch time plus the flight time. *)
Theorem C9_next_throw_time_monotone (sw : list Z) (b : Ball) :
  sw <> [] ->
  Forall (fun v => 0 <= v)%Z sw ->
  reachable sw b ->
  0 <= throw_delay /\
  (forall b', updates sw b b' -> next_throw_time b <= next_throw_time b') /\
  (forall t b',
     update b t sw (period_of sw) = Ok b' ->
     next_throw_time b' = next_throw_time b \/
     state b = in_air /\ state b' = in_hand /\
     exists f, flight b = Some f /\
               next_throw_time b' = start_time f + flight_time f).
Proof.
  intros Hne Hnn Hr.
  split; [ discriminate | ].
  split.
  - intros b' Hus.
    induction Hus as [b | b b' b'' t Hus IH Hu].
    + apply Qle_refl.
    + apply Qle_trans with (y := next_throw_time b').
      * apply IH. assumption.
      * apply (update_next_throw_time sw b' b'' t Hne Hnn); [ | assumption ].
        apply (updates_reachable sw b b'); assumption.
  - intros t b' Hu.
    apply (update_next_throw_time sw b b' t Hne Hnn Hr Hu).
Qed.

Lemma C9_next_throw_time_monotone_witness :
  0 <= throw_delay /\
  (forall b', updates [4; 0]%Z (Ball_init 1 (1 # 2) L) b' ->
              1 # 2 <= next_throw_time b') /\
  (forall t b',
     update (Ball_init 1 (1 # 2) L) t [4; 0]%Z (period_of [4; 0]%Z) = Ok b' ->
     next_throw_time b' = 1 # 2 \/
     state (Ball_init 1 (1 # 2) L) = in_air /\ state b' = in_hand /\
     exists f, flight (Ball_init 1 (1 # 2) L) = Some f /\
               next_throw_time b' = start_time f + flight_time f).
Proof.
  apply (C9_next_throw_time_monotone [4; 0]%Z (Ball_init 1 (1 # 2) L)).
  - discriminate.
  - repeat constructor; discriminate.
  - apply reach_init.
Defined.

(** C10.  The call that catches a ball does not throw it again: it ends
    with the ball held and the flight record of the finished flight, also
    when the release time of the next throw has already passed.  The next
    call is the one that throws it. *)
Theorem C10_catch_does_not_rethrow (sw : list Z) (b b' : Ball) (current_time : Q) :
  sw <> [] ->
  state b = in_air ->
  update b current_time sw (period_of sw) = Ok b' ->
  state b' = in_hand ->
  (exists f, flight b = Some f /\ b' = caught b f) /\
  flight b' = flight b /\
  (next_throw_time b' + throw_delay <= current_time ->
   exists b'',
     update b' current_time sw (period_of sw) = Ok b'' /\ state b'' = in_air).
Proof.
  intros Hne Hs Hu Hs'.
  destruct (update_cases sw Hne b b' current_time Hu)
    as [(K & _) | [(K & _) | (_ & f & Hf & [(_ & E) | (_ & E)])]];
    try congruence.
  - subst b'. simpl in Hs'. congruence.
  - split; [ exists f; split; assumption | ].
    split; [ subst b'; reflexivity | ].
    intro Hpast.
    destruct (throw_ok sw Hne b' current_time) as (v & _ & Ht).
    exists (launch b' current_time v). split; [ | reflexivity ].
    unfold update. rewrite Hs'.
    apply Qle_bool_iff in Hpast. rewrite Hpast. exact Ht.
Qed.

Lemma C10_catch_does_not_rethrow_witness :
  exists b',
    update (launch (Ball_init 0 0 R) (1 # 4) 1) 2 [1]%Z (period_of [1]%Z) = Ok b' /\
    state b' = in_hand /\
    next_throw_time b' + throw_delay <= 2 /\
    (exists f, flight (launch (Ball_init 0 0 R) (1 # 4) 1) = Some f /\
               b' = caught (launch (Ball_init 0 0 R) (1 # 4) 1) f) /\
    flight b' = flight (launch (Ball_init 0 0 R) (1 # 4) 1) /\
    (next_throw_time b' + throw_delay <= 2 ->
     exists b'',
       update b' 2 [1]%Z (period_of [1]%Z) = Ok b'' /\ state b'' = in_air).
Proof.
  eexists.
  split; [ reflexivity | ].
  split; [ reflexivity | ].
  split; [ vm_compute; discriminate | ].
  apply (C10_catch_does_not_rethrow [1]%Z (launch (Ball_init 0 0 R) (1 # 4) 1)).
  - discriminate.
  - reflexivity.
  - reflexivity.
  - reflexivity.
Defined.

(** ** Further facts: the pattern and the balls at the start *)

Lemma sum_from (l : list Z) (a : Z) : fold_left Z.add l a = (a + Py.sum l)%Z.
Proof.
  unfold Py.sum. revert a.
  induction l as [ | x l IH]; intro a; simpl.
  - lia.
  - rewrite (IH (a + x)%Z), (IH x). lia.
Qed.

Lemma sum_cons (x : Z) (l : list Z) : Py.sum (x :: l) = (x + Py.sum l)%Z.
Proof. unfold Py.sum at 1. simpl. apply sum_from. Qed.

Lemma sum_bounds (l : list Z) (lo hi : Z) :
  Forall (fun v => lo <= v <= hi)%Z l ->
  (lo * Z.of_nat (List.length l) <= Py.sum l <= hi * Z.of_nat (List.length l))%Z.
Proof.
  induction 1 as [ | x l Hx _ IH].
  - simpl. unfold Py.sum. simpl. lia.
  - rewrite sum_cons. cbn [List.length]. lia.
Qed.

Lemma chars_app (s1 s2 : string) :
  list_ascii_of_string (s1 ++ s2)
  = (list_ascii_of_string s1 ++ list_ascii_of_string s2)%list.
Proof.
  induction s1 as [ | c s1 IH]; simpl; [ reflexivity | ].
  rewrite IH. reflexivity.
Qed.

Lemma parse_digits (siteswap_input : string) :
  Forall (fun v => 0 <= v <= 9)%Z (parse siteswap_input).
Proof.
  unfold parse. apply Forall_forall. intros v Hin.
  apply in_map_iff in Hin. destruct Hin as (c & <- & Hc).
  apply filter_In in Hc. destruct Hc as (_ & Hd).
  unfold Py.isdigit in Hd. apply andb_true_iff in Hd. destruct Hd as (H1 & H2).
  apply Nat.leb_le in H1. apply Nat.leb_le in H2.
  unfold Py.int_of_char. lia.
Qed.

(** X2.  For ASCII inputs, the pattern of two inputs put end to end is
    the two patterns put end to end. *)
Theorem X2_parse_app (s1 s2 : string) :
  isascii s1 = true ->
  isascii s2 = true ->
  isascii (s1 ++ s2) = true /\
  parse (s1 ++ s2) = (parse s1 ++ parse s2)%list.
Proof.
  intros H1 H2. split.
  - unfold isascii in *. rewrite chars_app, forallb_app, H1, H2. reflexivity.
  - unfold parse. rewrite chars_app, filter_app, map_app. reflexivity.
Qed.

Lemma X2_parse_app_witness :
  isascii "5 " = true /\
  isascii "3-1" = true /\
  isascii ("5 " ++ "3-1") = true /\
  parse ("5 " ++ "3-1") = (parse "5 " ++ parse "3-1")%list.
Proof.
  split; [ reflexivity | ].
  split; [ reflexivity | ].
  apply (X2_parse_app "5 " "3-1"); reflexivity.
Defined.

(** X3.  In an ASCII input, a character other than '0' to '9', anywhere,
    changes nothing to the pattern. *)
Theorem X3_parse_skips_non_digit (s1 s2 : string) (c : ascii) :
  isascii (s1 ++ String c s2) = true ->
  Py.isdigit c = false ->
  isascii (s1 ++ s2) = true /\
  parse (s1 ++ String c s2) = parse (s1 ++ s2).
Proof.
  intros Ha Hc. split.
  - unfold isascii in *. rewrite chars_app, forallb_app in *.
    simpl in Ha. apply andb_true_iff in Ha. destruct Ha as (H1 & H2).
    apply andb_true_iff in H2. destruct H2 as (_ & H2).
    rewrite H1, H2. reflexivity.
  - unfold parse. rewrite !chars_app, !filter_app.
    simpl. rewrite Hc. reflexivity.
Qed.

Lemma X3_parse_skips_non_digit_witness :
  isascii ("5" ++ String " " "31") = true /\
  Py.isdigit " " = false /\
  isascii ("5" ++ "31") = true /\
  parse ("5" ++ String " " "31") = parse ("5" ++ "31").
Proof.
  split; [ reflexivity | ].
  split; [ reflexivity | ].
  apply (X3_parse_skips_non_digit "5" "31" " "); reflexivity.
Defined.

Lemma range_length (n : Z) : List.length (Py.range n) = Z.to_nat n.
Proof. unfold Py.range. rewrite length_map, length_seq. reflexivity. Qed.

Lemma range_nth (n i : Z) :
  (0 <= i < n)%Z -> nth_error (Py.range n) (Z.to_nat i) = Some i.
Proof.
  intro Hi. unfold Py.range.
  rewrite nth_error_map.
  rewrite nth_error_seq.
  destruct (Nat.ltb_spec (Z.to_nat i) (Z.to_nat n)) as [_ | K]; [ | lia ].
  simpl. f_equal. lia.
Qed.

(** X4.  From an ASCII input with a digit the program starts: the number of
    balls is between 0 and 9, it is the mean of the throw values rounded
    down (less than one ball is lost), and that many balls are created. *)
Theorem X4_num_balls_bounds (siteswap_input : string) :
  isascii siteswap_input = true ->
  parse siteswap_input <> [] ->
  exists p,
    initialise siteswap_input = Ok p /\
    (0 <= num_balls p <= 9)%Z /\
    (period p * num_balls p <= Py.sum (siteswap p)
       < period p * (num_balls p + 1))%Z /\
    List.length (balls p) = Z.to_nat (num_balls p).
Proof.
  intros _ Hne.
  pose proof (period_pos _ Hne) as Hp.
  pose proof (sum_bounds _ 0 9 (parse_digits siteswap_input)) as Hs.
  fold (period_of (parse siteswap_input)) in Hs.
  unfold initialise, num_balls_of, Py.truediv.
  destruct (Z.eqb_spec (period_of (parse siteswap_input)) 0) as [K | _];
    [ lia | ].
  eexists. split; [ reflexivity | ]. simpl.
  rewrite (int_truediv _ _ Hp).
  rewrite Z.quot_div_nonneg by lia.
  set (s := Py.sum (parse siteswap_input)) in *.
  set (n := period_of (parse siteswap_input)) in *.
  pose proof (Z.div_mod s n ltac:(lia)) as Hdm.
  pose proof (Z.mod_pos_bound s n Hp) as Hm.
  split; [ | split ].
  - split.
    + apply Z.div_pos; lia.
    + apply Z.div_le_upper_bound; lia.
  - lia.
  - unfold make_balls. rewrite length_map. apply range_length.
Qed.

Lemma X4_num_balls_bounds_witness :
  isascii "7 1" = true /\
  exists p,
    initialise "7 1" = Ok p /\
    (0 <= num_balls p <= 9)%Z /\
    (period p * num_balls p <= Py.sum (siteswap p)
       < period p * (num_balls p + 1))%Z /\
    List.length (balls p) = Z.to_nat (num_balls p).
Proof.
  split; [ reflexivity | ].
  apply (X4_num_balls_bounds "7 1"); [ reflexivity | discriminate ].
Defined.

Lemma make_balls_nth (n i : Z) :
  (0 <= i < n)%Z ->
  nth_error (make_balls n) (Z.to_nat i)
  = Some (Ball_init i (inject_Z i * T_beat) (if (i mod 2 =? 0)%Z then R else L)).
Proof.
  intro Hi. unfold make_balls.
  rewrite nth_error_map, (range_nth n i Hi). reflexivity.
Qed.

(** X5.  Ball number [i] of the program starts held, at its hand's
    position, with identifier [i], scheduled at [i / 2] seconds, in the
    right hand when [i] is even and in the left hand when it is odd. *)
Theorem X5_make_balls_nth (n i : Z) :
  (0 <= i < n)%Z ->
  exists b,
    nth_error (make_balls n) (Z.to_nat i) = Some b /\
    ball_id b = i /\
    next_throw_time b == inject_Z i / 2 /\
    hand b = (if Z.even i then R else L) /\
    state b = in_hand /\
    pos b = array (hand_positions (hand b)) /\
    flight b = None.
Proof.
  intro Hi. eexists. split; [ exact (make_balls_nth n i Hi) | ].
  simpl.
  split; [ reflexivity | ].
  split; [ unfold T_beat; field | ].
  split; [ rewrite Zmod_even; destruct (Z.even i); reflexivity | ].
  repeat split.
Qed.

Lemma X5_make_balls_nth_witness :
  exists b,
    nth_error (make_balls 3) (Z.to_nat 1) = Some b /\
    ball_id b = 1%Z /\
    next_throw_time b == inject_Z 1 / 2 /\
    hand b = (if Z.even 1 then R else L) /\
    state b = in_hand /\
    pos b = array (hand_positions (hand b)) /\
    flight b = None.
Proof.
  apply (X5_make_balls_nth 3 1). lia.
Defined.

Lemma round_inject_Z (n : Z) : Py.round (inject_Z n) = n.
Proof.
  unfold Py.round. rewrite Qfloor_Z.
  destruct (Qcompare_spec (inject_Z n - inject_Z n) (1 # 2)) as [E | H | H];
    [ exfalso; lra | reflexivity | exfalso; lra ].
Qed.

Lemma beat_of_fresh (i : Z) (h : Hand) :
  beat_of (Ball_init i (inject_Z i * T_beat) h) = i.
Proof.
  unfold beat_of. simpl.
  rewrite (round_comp _ (inject_Z i)); [ apply round_inject_Z | ].
  unfold T_beat. field.
Qed.

(** X6.  The first throw of the ball created with number [i] has the
    throw value at index [i mod period] of the pattern. *)
Theorem X6_first_throw_value (sw : list Z) (i : Z) (h : Hand) :
  sw <> [] ->
  exists v,
    throw_value_of (Ball_init i (inject_Z i * T_beat) h) sw (period_of sw) = Ok v /\
    nth_error sw (Z.to_nat (i mod period_of sw)) = Some v.
Proof.
  intro Hne.
  destruct (throw_value_ok sw Hne (Ball_init i (inject_Z i * T_beat) h))
    as (v & Hv & Hn & _).
  rewrite beat_of_fresh in Hn.
  exists v. split; assumption.
Qed.

Lemma X6_first_throw_value_witness :
  exists v,
    throw_value_of (Ball_init 2 (inject_Z 2 * T_beat) R) [5; 1]%Z
      (period_of [5; 1]%Z) = Ok v /\
    nth_error [5; 1]%Z (Z.to_nat (2 mod period_of [5; 1]%Z)) = Some v.
Proof.
  apply (X6_first_throw_value [5; 1]%Z 2 R). discriminate.
Defined.

(** ** Further facts: what a call can raise *)

(** An index is accepted exactly between [-len] and [len - 1]. *)
Lemma getitem_ok_iff {A} (l : list A) (i : Z) :
  (exists a, Py.getitem l i = Ok a) <->
  (- Z.of_nat (List.length l) <= i < Z.of_nat (List.length l))%Z.
Proof.
  unfold Py.getitem. cbv zeta.
  set (n := Z.of_nat (List.length l)).
  destruct (Z.ltb_spec i 0) as [Hneg | Hpos].
  - destruct (Z.ltb_spec (i + n) 0) as [K | K]; simpl.
    + split; [ intros (a & Ha); discriminate | lia ].
    + destruct (Z.leb_spec n (i + n)) as [K' | K']; [ lia | ].
      destruct (nth_error l (Z.to_nat (i + n))) as [a | ] eqn:E.
      * split; [ lia | intros _; exists a; reflexivity ].
      * apply nth_error_None in E. lia.
  - destruct (Z.ltb_spec i 0) as [K | _]; [ lia | ]. simpl.
    destruct (Z.leb_spec n i) as [K | K].
    + split; [ intros (a & Ha); discriminate | lia ].
    + destruct (nth_error l (Z.to_nat i)) as [a | ] eqn:E.
      * split; [ lia | intros _; exists a; reflexivity ].
      * apply nth_error_None in E. lia.
Qed.

Lemma getitem_err {A} (l : list A) (i : Z) (e : Py.exn) :
  Py.getitem l i = Err e -> e = Py.IndexError.
Proof.
  unfold Py.getitem. cbv zeta.
  destruct (_ || _).
  - congruence.
  - destruct (nth_error _ _); congruence.
Qed.

Lemma getitem_In {A} (l : list A) (i : Z) (a : A) :
  Py.getitem l i = Ok a -> In a l.
Proof.
  unfold Py.getitem. cbv zeta.
  destruct (_ || _); [ discriminate | ].
  destruct (nth_error l _) as [a' | ] eqn:E; [ | discriminate ].
  intro H. injection H as <-. apply nth_error_In in E. exact E.
Qed.

Lemma throw_value_raises (b : Ball) (sw : list Z) (p : Z) (e : Py.exn) :
  throw_value_of b sw p = Err e <->
  (p = 0%Z /\ e = Py.ZeroDivisionError) \/
  (p <> 0%Z /\ e = Py.IndexError /\
   (beat_of b mod p < - Z.of_nat (List.length sw)
    \/ Z.of_nat (List.length sw) <= beat_of b mod p)%Z).
Proof.
  unfold throw_value_of, Py.mod_.
  destruct (Z.eqb_spec p 0) as [Hp | Hp]; simpl.
  - split.
    + intro H. left. split; congruence.
    + intros [(_ & ->) | (K & _)]; [ reflexivity | contradiction ].
  - pose proof (getitem_ok_iff sw (beat_of b mod p)) as Hok.
    split.
    + intro H. right. split; [ assumption | ].
      split; [ exact (getitem_err _ _ _ H) | ].
      destruct (Z.lt_ge_cases (beat_of b mod p) (- Z.of_nat (List.length sw)));
        [ left; assumption | ].
      destruct (Z.lt_ge_cases (beat_of b mod p) (Z.of_nat (List.length sw)));
        [ | right; assumption ].
      destruct (proj2 Hok ltac:(lia)) as (a & Ha). congruence.
    + intros [(K & _) | (_ & -> & Hr)]; [ contradiction | ].
      destruct (Py.getitem sw (beat_of b mod p)) as [a | e'] eqn:E.
      * assert (Hin : (- Z.of_nat (List.length sw) <= beat_of b mod p
                        < Z.of_nat (List.length sw))%Z)
          by (apply Hok; exists a; reflexivity).
        lia.
      * f_equal. exact (getitem_err _ _ _ E).
Qed.

(** The three ways a call can raise, in the model. *)
Lemma update_raises (b : Ball) (current_time : Q) (sw : list Z) (p : Z)
    (e : Py.exn) :
  update b current_time sw p = Err e <->
  (state b = in_air /\ flight b = None /\ e = Py.TypeError) \/
  (state b = in_hand /\ next_throw_time b + throw_delay <= current_time /\
   ((p = 0%Z /\ e = Py.ZeroDivisionError) \/
    (p <> 0%Z /\ e = Py.IndexError /\
     (beat_of b mod p < - Z.of_nat (List.length sw)
      \/ Z.of_nat (List.length sw) <= beat_of b mod p)%Z))).
Proof.
  unfold update.
  destruct (state b) eqn:Es.
  - destruct (Qle_bool (next_throw_time b + throw_delay) current_time) eqn:Ec.
    + apply Qle_bool_iff in Ec.
      unfold throw.
      destruct (throw_value_of b sw p) as [v | e'] eqn:Ev; simpl.
      * split; [ discriminate | ].
        intros [(K & _) | (_ & _ & Hr)]; [ discriminate | ].
        apply throw_value_raises in Hr. congruence.
      * split.
        -- intro H. injection H as ->. right.
           split; [ reflexivity | split; [ assumption | ] ].
           apply throw_value_raises. assumption.
        -- intros [(K & _) | (_ & _ & Hr)]; [ discriminate | ].
           apply throw_value_raises in Hr. congruence.
    + apply Qle_bool_false in Ec.
      split; [ discriminate | ].
      intros [(K & _) | (_ & K & _)]; [ discriminate | contradiction ].
  - destruct (flight b) as [f | ].
    + split.
      * destruct (Py.Qlt_bool _ _); discriminate.
      * intros [(_ & K & _) | (K & _)]; discriminate.
    + split.
      * intro H. left. repeat split. congruence.
      * intros [(_ & _ & ->) | (K & _)]; [ reflexivity | discriminate ].
Qed.

(** X7.  While the times and the throw values keep the floats in range
    ([time_fits], [int_fits]: no OverflowError), a call to [update], with
    any pattern and any period, raises in three cases only: TypeError on
    a ball in the air that was never thrown; on a held ball that is due,
    ZeroDivisionError when the period is 0 and IndexError when the beat
    taken modulo the period is not an index of the pattern (below [-len]
    or at least [len]). *)
Theorem X7_update_raises (b : Ball) (current_time : Q) (sw : list Z) (p : Z)
    (e : Py.exn) :
  time_fits current_time ->
  ball_fits b ->
  Forall int_fits sw ->
  (update b current_time sw p = Err e <->
   (state b = in_air /\ flight b = None /\ e = Py.TypeError) \/
   (state b = in_hand /\ next_throw_time b + throw_delay <= current_time /\
    ((p = 0%Z /\ e = Py.ZeroDivisionError) \/
     (p <> 0%Z /\ e = Py.IndexError /\
      (beat_of b mod p < - Z.of_nat (List.length sw)
       \/ Z.of_nat (List.length sw) <= beat_of b mod p)%Z)))).
Proof.
  intros _ _ _. apply update_raises.
Qed.

Lemma X7_update_raises_witness :
  time_fits 1 /\
  ball_fits (Ball_init 0 (1 # 2) R) /\
  Forall int_fits [5; 3; 1]%Z /\
  (update (Ball_init 0 (1 # 2) R) 1 [5; 3; 1]%Z 7 = Err Py.IndexError <->
   (state (Ball_init 0 (1 # 2) R) = in_air /\
    flight (Ball_init 0 (1 # 2) R) = None /\ Py.IndexError = Py.TypeError) \/
   (state (Ball_init 0 (1 # 2) R) = in_hand /\
    next_throw_time (Ball_init 0 (1 # 2) R) + throw_delay <= 1 /\
    ((7%Z = 0%Z /\ Py.IndexError = Py.ZeroDivisionError) \/
     (7%Z <> 0%Z /\ Py.IndexError = Py.IndexError /\
      (beat_of (Ball_init 0 (1 # 2) R) mod 7
         < - Z.of_nat (List.length [5; 3; 1]%Z)
       \/ Z.of_nat (List.length [5; 3; 1]%Z)
          <= beat_of (Ball_init 0 (1 # 2) R) mod 7)%Z)))).
Proof.
  assert (H1 : time_fits 1)
    by (unfold time_fits; apply Qle_bool_iff; vm_compute; reflexivity).
  assert (H2 : ball_fits (Ball_init 0 (1 # 2) R)).
  { split.
    - unfold time_fits. apply Qle_bool_iff. vm_compute. reflexivity.
    - intros f Hf. discriminate. }
  assert (H3 : Forall int_fits [5; 3; 1]%Z)
    by (repeat constructor; unfold int_fits; apply Z.leb_le; vm_compute;
        reflexivity).
  split; [ exact H1 | ].
  split; [ exact H2 | ].
  split; [ exact H3 | ].
  apply (X7_update_raises (Ball_init 0 (1 # 2) R) 1 [5; 3; 1]%Z 7
           Py.IndexError H1 H2 H3).
Defined.

(** X8.  While the times and the throw values keep the floats in range,
    a throw raises nothing as soon as the period is not 0 and is at most
    the length of the pattern in absolute value (a negative remainder
    counts from the end of the pattern), and its throw value is then one
    of the pattern. *)
Theorem X8_throw_in_range (b : Ball) (current_time : Q) (sw : list Z) (p : Z) :
  time_fits current_time ->
  ball_fits b ->
  Forall int_fits sw ->
  p <> 0%Z ->
  (Z.abs p <= Z.of_nat (List.length sw))%Z ->
  exists v, In v sw /\ throw b current_time sw p = Ok (launch b current_time v).
Proof.
  intros _ _ _ Hp Hlen. unfold throw.
  destruct (throw_value_of b sw p) as [v | e] eqn:Ev.
  - exists v. split; [ | reflexivity ].
    unfold throw_value_of, Py.mod_ in Ev.
    destruct (Z.eqb_spec p 0) as [K | _]; [ contradiction | ].
    simpl in Ev. exact (getitem_In _ _ _ Ev).
  - exfalso. apply throw_value_raises in Ev.
    destruct Ev as [(K & _) | (_ & _ & Hr)]; [ contradiction | ].
    destruct (Z.lt_trichotomy p 0) as [Hn | [K | Hpos]]; [ | contradiction | ].
    + pose proof (Z.mod_neg_bound (beat_of b) p Hn). lia.
    + pose proof (Z.mod_pos_bound (beat_of b) p Hpos). lia.
Qed.

Lemma X8_throw_in_range_witness :
  time_fits 1 /\
  ball_fits (Ball_init 0 (1 # 2) R) /\
  Forall int_fits [5; 3; 1]%Z /\
  exists v,
    In v [5; 3; 1]%Z /\
    throw (Ball_init 0 (1 # 2) R) 1 [5; 3; 1]%Z (-2)
    = Ok (launch (Ball_init 0 (1 # 2) R) 1 v).
Proof.
  assert (H1 : time_fits 1)
    by (unfold time_fits; apply Qle_bool_iff; vm_compute; reflexivity).
  assert (H2 : ball_fits (Ball_init 0 (1 # 2) R)).
  { split.
    - unfold time_fits. apply Qle_bool_iff. vm_compute. reflexivity.
    - intros f Hf. discriminate. }
  assert (H3 : Forall int_fits [5; 3; 1]%Z)
    by (repeat constructor; unfold int_fits; apply Z.leb_le; vm_compute;
        reflexivity).
  split; [ exact H1 | ].
  split; [ exact H2 | ].
  split; [ exact H3 | ].
  apply (X8_throw_in_range (Ball_init 0 (1 # 2) R) 1 [5; 3; 1]%Z (-2) H1 H2 H3).
  - discriminate.
  - simpl. lia.
Defined.

Lemma update_keeps_id (b b' : Ball) (t : Q) (sw : list Z) (p : Z) :
  update b t sw p = Ok b' -> ball_id b' = ball_id b.
Proof.
  unfold update, throw. intro H.
  destruct (state b).
  - destruct (Qle_bool _ _).
    + destruct (throw_value_of b sw p); [ | discriminate ].
      simpl in H. injection H as <-. reflexivity.
    + injection H as <-. reflexivity.
  - destruct (flight b) as [f | ]; [ | discriminate ].
    destruct (Py.Qlt_bool _ _); injection H as <-; reflexivity.
Qed.

(** X9.  With a non-empty pattern and its length as the period, and
    while the times and the throw values keep the floats in range, a call
    raises nothing on a ball that was created by [Ball] and only changed
    by earlier calls; the ball keeps its identifier. *)
Theorem X9_update_never_raises (sw : list Z) (b : Ball) (current_time : Q) :
  time_fits current_time ->
  ball_fits b ->
  Forall int_fits sw ->
  sw <> [] ->
  reachable sw b ->
  exists b',
    update b current_time sw (period_of sw) = Ok b' /\
    ball_id b' = ball_id b.
Proof.
  intros _ _ _ Hne Hr.
  destruct (reachable_update_ok sw Hne b current_time Hr) as (b' & Hu).
  exists b'. split; [ assumption | ].
  exact (update_keeps_id _ _ _ _ _ Hu).
Qed.

Lemma X9_update_never_raises_witness :
  time_fits 3 /\
  ball_fits (Ball_init 4 2 R) /\
  Forall int_fits [4; 0]%Z /\
  exists b',
    update (Ball_init 4 2 R) 3 [4; 0]%Z (period_of [4; 0]%Z) = Ok b' /\
    ball_id b' = ball_id (Ball_init 4 2 R).
Proof.
  assert (H1 : time_fits 3)
    by (unfold time_fits; apply Qle_bool_iff; vm_compute; reflexivity).
  assert (H2 : ball_fits (Ball_init 4 2 R)).
  { split.
    - unfold time_fits. apply Qle_bool_iff. vm_compute. reflexivity.
    - intros f Hf. discriminate. }
  assert (H3 : Forall int_fits [4; 0]%Z)
    by (repeat constructor; unfold int_fits; apply Z.leb_le; vm_compute;
        reflexivity).
  split; [ exact H1 | ].
  split; [ exact H2 | ].
  split; [ exact H3 | ].
  apply (X9_update_never_raises [4; 0]%Z (Ball_init 4 2 R) 3 H1 H2 H3).
  - discriminate.
  - apply reach_init.
Defined.

(** ** Further facts: what a run keeps *)

Lemma reachable_at_rest (sw : list Z) (b : Ball) :
  sw <> [] -> reachable sw b -> at_rest b.
Proof.
  intros Hne. induction 1 as [i t0 h | b b' t _ IH Hu].
  - intros _. split; [ reflexivity | ]. intros f Hf. discriminate.
  - destruct (update_cases sw Hne b b' t Hu)
      as [(Es & _ & ->) | [(_ & _ & v & _ & ->) | (Es & f & Hf & [(_ & ->) | (_ & ->)])]];
      intro Hs; simpl in *.
    + split; [ reflexivity | ]. apply (IH Es).
    + discriminate.
    + congruence.
    + split; [ reflexivity | ].
      intros f' Hf'. assert (f' = f) by congruence. subst f'.
      split; reflexivity.
Qed.

(** X10.  In a run, a held ball is always exactly at the position of the
    hand that holds it. *)
Theorem X10_held_ball_at_hand (sw : list Z) (b : Ball) :
  sw <> [] ->
  reachable sw b ->
  state b = in_hand ->
  pos b = array (hand_positions (hand b)).
Proof.
  intros Hne Hr Hs. apply (reachable_at_rest sw b Hne Hr Hs).
Qed.

Lemma X10_held_ball_at_hand_witness :
  exists b1 b2,
    update (Ball_init 0 0 R) (1 # 4) [3]%Z (period_of [3]%Z) = Ok b1 /\
    update b1 2 [3]%Z (period_of [3]%Z) = Ok b2 /\
    state b2 = in_hand /\
    pos b2 = array (hand_positions (hand b2)).
Proof.
  do 2 eexists.
  split; [ reflexivity | ].
  split; [ reflexivity | ].
  split; [ reflexivity | ].
  apply (X10_held_ball_at_hand [3]%Z).
  - discriminate.
  - apply (reach_update [3]%Z (launch (Ball_init 0 0 R) (1 # 4) 3) _ 2).
    + apply (reach_update [3]%Z (Ball_init 0 0 R) _ (1 # 4)).
      * apply reach_init.
      * reflexivity.
    + reflexivity.
  - reflexivity.
Defined.

(** X11.  In a run, a held ball that has flown before is in the hand its
    last flight aimed at, and is scheduled at the catch time of that
    flight, the launch time plus the flight time. *)
Theorem X11_held_after_flight (sw : list Z) (b : Ball) (f : Flight) :
  sw <> [] ->
  reachable sw b ->
  state b = in_hand ->
  flight b = Some f ->
  hand b = dest_hand f /\
  next_throw_time b = catch_time f /\
  next_throw_time b = start_time f + flight_time f.
Proof.
  intros Hne Hr Hs Hf.
  destruct (reachable_at_rest sw b Hne Hr Hs) as (_ & H).
  destruct (H f Hf) as (Hh & Hn).
  destruct (reachable_launched sw Hne b Hr f Hf) as (Hc & _).
  repeat split; congruence.
Qed.

(** X12.  A catch moves the schedule of the ball forward by at least the
    release delay plus the flight time: the release was at least
    [throw_delay] after the scheduled time, and the catch is scheduled
    from the release. *)
Theorem X12_schedule_drift (sw : list Z) (b b' : Ball) (current_time : Q)
    (f : Flight) :
  sw <> [] ->
  reachable sw b ->
  state b = in_air ->
  flight b = Some f ->
  update b current_time sw (period_of sw) = Ok b' ->
  state b' = in_hand ->
  next_throw_time b + throw_delay <= start_time f /\
  next_throw_time b' = start_time f + flight_time f /\
  next_throw_time b + throw_delay + flight_time f <= next_throw_time b'.
Proof.
  intros Hne Hr Hs Hf Hu Hs'.
  destruct (reachable_released_late sw Hne b Hr Hs) as (f' & Hf' & Hle).
  assert (f' = f) by congruence. subst f'.
  destruct (reachable_launched sw Hne b Hr f Hf) as (Hc & _).
  destruct (update_cases sw Hne b b' current_time Hu)
    as [(K & _) | [(K & _) | (_ & f' & Hf'' & [(_ & E) | (_ & E)])]];
    try congruence.
  - subst b'. simpl in Hs'. congruence.
  - assert (f' = f) by congruence. subst f' b'. simpl.
    split; [ assumption | ].
    split; [ assumption | ].
    rewrite Hc. lra.
Qed.

Lemma X11_held_after_flight_witness :
  exists b1 b2 f,
    update (Ball_init 0 0 R) (1 # 4) [3]%Z (period_of [3]%Z) = Ok b1 /\
    update b1 2 [3]%Z (period_of [3]%Z) = Ok b2 /\
    state b2 = in_hand /\
    flight b2 = Some f /\
    hand b2 = dest_hand f /\
    next_throw_time b2 = catch_time f /\
    next_throw_time b2 = start_time f + flight_time f.
Proof.
  do 3 eexists.
  split; [ reflexivity | ].
  split; [ reflexivity | ].
  split; [ reflexivity | ].
  split; [ reflexivity | ].
  apply (X11_held_after_flight [3]%Z).
  - discriminate.
  - apply (reach_update [3]%Z (launch (Ball_init 0 0 R) (1 # 4) 3) _ 2).
    + apply (reach_update [3]%Z (Ball_init 0 0 R) _ (1 # 4)).
      * apply reach_init.
      * reflexivity.
    + reflexivity.
  - reflexivity.
  - reflexivity.
Defined.

Lemma X12_schedule_drift_witness :
  exists b1 b2 f,
    update (Ball_init 0 0 R) (1 # 4) [3]%Z (period_of [3]%Z) = Ok b1 /\
    state b1 = in_air /\
    flight b1 = Some f /\
    update b1 2 [3]%Z (period_of [3]%Z) = Ok b2 /\
    state b2 = in_hand /\
    next_throw_time b1 + throw_delay <= start_time f /\
    next_throw_time b2 = start_time f + flight_time f /\
    next_throw_time b1 + throw_delay + flight_time f <= next_throw_time b2.
Proof.
  do 3 eexists.
  split; [ reflexivity | ].
  split; [ reflexivity | ].
  split; [ reflexivity | ].
  split; [ reflexivity | ].
  split; [ reflexivity | ].
  apply (X12_schedule_drift [3]%Z (launch (Ball_init 0 0 R) (1 # 4) 3) _ 2).
  - discriminate.
  - apply (reach_update [3]%Z (Ball_init 0 0 R) _ (1 # 4)).
    + apply reach_init.
    + reflexivity.
  - reflexivity.
  - reflexivity.
  - reflexivity.
  - reflexivity.
Defined.

(** ** Further facts: the parabola *)

Lemma hand_height (h : Hand) : snd (hand_positions h) = 0.
Proof. destruct h; reflexivity. Qed.

Lemma square_nonneg (x : Q) : 0 <= x * x.
Proof.
  destruct (Qlt_le_dec x 0) as [H | H].
  - setoid_replace (x * x) with ((- x) * (- x)) by ring.
    apply Qmult_le_0_compat; lra.
  - apply Qmult_le_0_compat; assumption.
Qed.

(** X13.  A thrown ball is never below the hands during its flight: at
    [el] after the launch, between 0 and the flight time [T], its height
    is [0.5 * g * el * (T - el)], which is at least 0 and at most
    [g * T^2 / 8], the height reached at [T / 2]. *)
Theorem X13_height_in_flight (b : Ball) (t0 : Q) (v : Z) (f : Flight) (el : Q) :
  flight (launch b t0 v) = Some f ->
  0 <= el <= flight_time f ->
  (exists y,
     snd (trajectory f el) = Fin y /\
     y == (1 # 2) * g * el * (flight_time f - el) /\
     0 <= y <= g * flight_time f ^ 2 / 8) /\
  (exists ym,
     snd (trajectory f (flight_time f / 2)) = Fin ym /\
     ym == g * flight_time f ^ 2 / 8).
Proof.
  intros Hf Hel. simpl in Hf. injection Hf as <-. simpl in *.
  rewrite hand_height.
  set (T := inject_Z v * T_beat) in *.
  assert (Ey : 0 + (1 # 2) * g * T * el - (1 # 2) * g * el ^ 2
               == (1 # 2) * g * el * (T - el)) by ring.
  split.
  - eexists. split; [ reflexivity | ]. split; [ exact Ey | ].
    rewrite Ey. unfold g. split.
    + apply Qmult_le_0_compat; [ | lra ].
      apply Qmult_le_0_compat; lra.
    + apply Qle_minus_iff.
      setoid_replace ((49 # 5) * T ^ 2 / 8 + - ((1 # 2) * (49 # 5) * el * (T - el)))
        with ((49 # 10) * ((el - T / 2) * (el - T / 2))) by field.
      apply Qmult_le_0_compat; [ discriminate | apply square_nonneg ].
  - eexists. split; [ reflexivity | ]. unfold g. field.
Qed.

Lemma X13_height_in_flight_witness :
  exists f,
    flight (launch (Ball_init 0 0 R) (1 # 4) 3) = Some f /\
    0 <= 1 <= flight_time f /\
    (exists y,
       snd (trajectory f 1) = Fin y /\
       y == (1 # 2) * g * 1 * (flight_time f - 1) /\
       0 <= y <= g * flight_time f ^ 2 / 8) /\
    (exists ym,
       snd (trajectory f (flight_time f / 2)) = Fin ym /\
       ym == g * flight_time f ^ 2 / 8).
Proof.
  eexists.
  split; [ reflexivity | ].
  split; [ split; discriminate | ].
  apply (X13_height_in_flight (Ball_init 0 0 R) (1 # 4) 3).
  - reflexivity.
  - split; discriminate.
Defined.

(** X14.  With a positive throw value the ball stays between the two
    hands during its flight, its abscissa between -1 and 1; after an even
    throw it stays above the hand that threw it. *)
Theorem X14_abscissa_in_flight (b : Ball) (t0 : Q) (v : Z) (f : Flight) (el : Q) :
  (0 < v)%Z ->
  flight (launch b t0 v) = Some f ->
  0 <= el <= flight_time f ->
  exists x,
    fst (trajectory f el) = Fin x /\
    - (1) <= x <= 1 /\
    (Z.even v = true -> x == fst (hand_positions (hand b))).
Proof.
  intros Hv Hf Hel.
  destruct (launch_divisor_pos b t0 v Hv f Hf) as (HT & _).
  simpl in Hf. injection Hf as <-. simpl in *.
  set (T := inject_Z v * T_beat) in *.
  assert (Hnz : ~ T == 0) by lra.
  assert (Hb : Qeq_bool T 0 = false).
  { destruct (Qeq_bool T 0) eqn:E; [ | reflexivity ].
    apply Qeq_bool_iff in E. contradiction. }
  unfold np_div. rewrite Hb. simpl.
  eexists. split; [ reflexivity | ].
  assert (Hr0 : 0 <= el / T) by (apply Qle_shift_div_l; lra).
  assert (Hr1 : el / T <= 1) by (apply Qle_shift_div_r; lra).
  destruct (Z.even v) eqn:Ee.
  - rewrite (dest_of_even _ _ Ee).
    assert (E : fst (hand_positions (hand b))
                + (fst (hand_positions (hand b)) - fst (hand_positions (hand b))) / T * el
                == fst (hand_positions (hand b))) by (field; exact Hnz).
    split; [ | intros _; exact E ].
    rewrite E. destruct (hand b); simpl; split; discriminate.
  - assert (Ho : Z.odd v = true) by (rewrite <- Z.negb_even, Ee; reflexivity).
    rewrite (dest_of_odd _ _ Ho).
    split; [ | discriminate ].
    destruct (hand b); simpl.
    + setoid_replace (1 + (- (1) - 1) / T * el) with (1 - 2 * (el / T))
        by (field; exact Hnz).
      split; lra.
    + setoid_replace (- (1) + (1 - - (1)) / T * el) with (- (1) + 2 * (el / T))
        by (field; exact Hnz).
      split; lra.
Qed.

Lemma X14_abscissa_in_flight_witness :
  exists f,
    flight (launch (Ball_init 0 0 R) (1 # 4) 4) = Some f /\
    0 <= 1 <= flight_time f /\
    exists x,
      fst (trajectory f 1) = Fin x /\
      - (1) <= x <= 1 /\
      (Z.even 4 = true -> x == fst (hand_positions R)).
Proof.
  eexists.
  split; [ reflexivity | ].
  split; [ split; discriminate | ].
  apply (X14_abscissa_in_flight (Ball_init 0 0 R) (1 # 4) 4).
  - reflexivity.
  - reflexivity.
  - split; discriminate.
Defined.

(** ** Further facts: the markers and the frames *)

Lemma mapM_length {A B} (f : A -> result B) (l : list A) (bs : list B) :
  mapM f l = Ok bs -> List.length bs = List.length l.
Proof.
  revert bs. induction l as [ | a l IH]; intros bs H; simpl in H.
  - injection H as <-. reflexivity.
  - destruct (f a) as [b | e]; [ | discriminate ]. simpl in H.
    destruct (mapM f l) as [bs' | e]; [ | discriminate ]. simpl in H.
    injection H as <-. simpl. f_equal. apply IH. reflexivity.
Qed.

Lemma mapM_nth {A B} (f : A -> result B) (l : list A) (bs : list B)
    (k : nat) (a : A) :
  mapM f l = Ok bs ->
  nth_error l k = Some a ->
  exists b, nth_error bs k = Some b /\ f a = Ok b.
Proof.
  revert bs k. induction l as [ | a0 l IH]; intros bs k H Hk; simpl in H.
  - destruct k; discriminate.
  - destruct (f a0) as [b0 | e] eqn:E0; [ | discriminate ]. simpl in H.
    destruct (mapM f l) as [bs' | e]; [ | discriminate ]. simpl in H.
    injection H as <-.
    destruct k as [ | k]; simpl in *.
    + injection Hk as <-. exists b0. split; [ reflexivity | assumption ].
    + apply (IH bs' k eq_refl Hk).
Qed.

Lemma mapM_ok {A B} (f : A -> result B) (l : list A) :
  (forall a, In a l -> exists b, f a = Ok b) ->
  exists bs, mapM f l = Ok bs.
Proof.
  induction l as [ | a l IH]; intro H; simpl.
  - eexists. reflexivity.
  - destruct (H a (or_introl eq_refl)) as (b & ->). simpl.
    destruct IH as (bs & ->).
    + intros a' Ha'. apply H. right. assumption.
    + eexists. reflexivity.
Qed.

Lemma make_marker_ok (i : Z) :
  (0 <= i)%Z ->
  exists m,
    make_marker i = Ok m /\
    center m = (Fin 0, Fin 0) /\
    nth_error colors (Z.to_nat (i mod 6)) = Some (color m).
Proof.
  intro Hi. unfold make_marker, Py.mod_. simpl.
  destruct (getitem_in_range colors (i mod 6)) as (c & Hc & Hn).
  - simpl. apply Z.mod_pos_bound. lia.
  - rewrite Hc. simpl. eexists. split; [ reflexivity | ].
    split; [ reflexivity | exact Hn ].
Qed.

Lemma range_In (n i : Z) : In i (Py.range n) -> (0 <= i < n)%Z.
Proof.
  unfold Py.range. intro H. apply in_map_iff in H.
  destruct H as (k & <- & Hk). apply in_seq in Hk. lia.
Qed.

Lemma make_markers_ok (n : Z) :
  exists ms,
    make_markers n = Ok ms /\
    List.length ms = Z.to_nat n /\
    forall i, (0 <= i < n)%Z ->
      exists m,
        nth_error ms (Z.to_nat i) = Some m /\
        center m = (Fin 0, Fin 0) /\
        nth_error colors (Z.to_nat (i mod 6)) = Some (color m).
Proof.
  unfold make_markers.
  destruct (mapM_ok make_marker (Py.range n)) as (ms & Hms).
  { intros i Hi. apply range_In in Hi.
    destruct (make_marker_ok i) as (m & Hm & _); [ lia | ].
    exists m. assumption. }
  exists ms. split; [ assumption | ].
  split; [ rewrite (mapM_length _ _ _ Hms); apply range_length | ].
  intros i Hi.
  destruct (mapM_nth _ _ _ _ _ Hms (range_nth n i Hi)) as (m & Hn & Hm).
  exists m. split; [ assumption | ].
  destruct (make_marker_ok i) as (m' & Hm' & Hc & Hcol); [ lia | ].
  assert (m' = m) by congruence. subst m'. split; assumption.
Qed.

(** X15.  The creation of the markers raises nothing, whatever the number
    of balls: there is one marker per ball, at (0, 0), and marker [i] has
    the colour at index [i mod 6] of the six colours, which repeat from
    the seventh ball on. *)
Theorem X15_make_markers (n : Z) :
  exists ms,
    make_markers n = Ok ms /\
    List.length ms = List.length (make_balls n) /\
    forall i, (0 <= i < n)%Z ->
      exists m,
        nth_error ms (Z.to_nat i) = Some m /\
        center m = (Fin 0, Fin 0) /\
        nth_error colors (Z.to_nat (i mod 6)) = Some (color m).
Proof.
  destruct (make_markers_ok n) as (ms & Hms & Hl & Hn).
  exists ms. split; [ assumption | ].
  split; [ | assumption ].
  unfold make_balls. rewrite length_map, range_length. assumption.
Qed.

Lemma finite_array (p : Q * Q) : finite_pos (array p).
Proof. split; eexists; reflexivity. Qed.

Lemma np_div_finite (a d : Q) : d == 0 \/ finite (np_div a d).
Proof.
  unfold np_div. destruct (Qeq_bool d 0) eqn:E.
  - left. apply Qeq_bool_iff. assumption.
  - right. eexists. reflexivity.
Qed.

(** A call later than the clock keeps [flying_ok], at the time of the
    call. *)
Lemma update_flying_ok (now t : Q) (b b' : Ball) (sw : list Z) (p : Z) :
  flying_ok now b ->
  now < t ->
  update b t sw p = Ok b' ->
  flying_ok t b'.
Proof.
  intros (Hpos & Hfl) Hlt. unfold update, throw.
  assert (Hold : forall f, flight b = Some f ->
                   start_time f <= t /\ (flight_time f == 0 \/ finite (vx f))).
  { intros f Hf. destruct (Hfl f Hf) as (H1 & H2). split; [ lra | assumption ]. }
  destruct (state b).
  - destruct (Qle_bool _ _).
    + destruct (throw_value_of b sw p) as [v | e]; [ | discriminate ].
      simpl. intro H. injection H as <-.
      split; [ exact Hpos | ].
      intros f Hf. simpl in Hf. injection Hf as <-. simpl.
      split; [ apply Qle_refl | apply np_div_finite ].
    + intro H. injection H as <-.
      split; [ apply finite_array | exact Hold ].
  - destruct (flight b) as [f | ] eqn:Ef; [ | discriminate ].
    destruct (Py.Qlt_bool (t - start_time f) (flight_time f)) eqn:Ec;
      intro H; injection H as <-.
    + split; [ | simpl; rewrite Ef; exact Hold ].
      apply Qlt_bool_true in Ec.
      destruct (Hfl f eq_refl) as (Hs & [Hz | (q & Hq)]).
      * exfalso. rewrite Hz in Ec. lra.
      * simpl. unfold trajectory. rewrite Hq. simpl.
        split; eexists; reflexivity.
    + split; [ apply finite_array | simpl; rewrite Ef; exact Hold ].
Qed.

Lemma update_each_ok (sw : list Z) (now t : Q) (bs : list Ball) (ms : list Marker) :
  sw <> [] ->
  now < t ->
  Forall (fun b => reachable sw b /\ flying_ok now b) bs ->
  List.length ms = List.length bs ->
  exists bs' ms',
    update_each t sw (period_of sw) bs ms = Ok (bs', ms') /\
    Forall (fun b => reachable sw b /\ flying_ok t b) bs' /\
    map ball_id bs' = map ball_id bs /\
    map center ms' = map pos bs' /\
    map color ms' = map color ms /\
    List.length ms' = List.length bs'.
Proof.
  intros Hne Hlt Hall. revert ms.
  induction Hall as [ | b bs (Hr & Hf) _ IH]; intros ms Hlen.
  - destruct ms; [ | discriminate ].
    exists [], []. repeat split. constructor.
  - destruct ms as [ | m ms]; [ discriminate | ].
    simpl in Hlen. injection Hlen as Hlen.
    destruct (reachable_update_ok sw Hne b t Hr) as (b' & Hu).
    destruct (IH ms Hlen) as (bs' & ms' & He & Hall' & Hid & Hc & Hcol & Hl).
    exists (b' :: bs'), (set_center m (pos b') :: ms').
    split; [ simpl; rewrite Hu; simpl; rewrite He; reflexivity | ].
    split.
    { constructor; [ | assumption ].
      split.
      - apply (reach_update sw b b' t); assumption.
      - apply (update_flying_ok now t b b' sw (period_of sw)); assumption. }
    simpl. rewrite (update_keeps_id _ _ _ _ _ Hu), Hid, Hc, Hcol, Hl.
    repeat split.
Qed.

Lemma update_frame_ok (p : Program) (s : Sim) :
  siteswap p <> [] ->
  period p = period_of (siteswap p) ->
  frame_inv p s ->
  exists s',
    update_frame p s = Ok s' /\
    frame_inv p s' /\
    sim_time s' = sim_time s + dt /\
    map ball_id (sim_balls s') = map ball_id (sim_balls s) /\
    map center (ball_markers s') = map pos (sim_balls s') /\
    map color (ball_markers s') = map color (ball_markers s).
Proof.
  intros Hne Hp (Hall & Hlen).
  assert (Hlt : sim_time s < sim_time s + dt) by (unfold dt; lra).
  destruct (update_each_ok (siteswap p) (sim_time s) (sim_time s + dt)
              (sim_balls s) (ball_markers s) Hne Hlt Hall Hlen)
    as (bs' & ms' & He & Hall' & Hid & Hc & Hcol & Hl).
  unfold update_frame. rewrite Hp, He. simpl.
  eexists. split; [ reflexivity | ].
  split; [ split; assumption | ].
  repeat split; assumption.
Qed.

Lemma frames_ok (n : nat) (p : Program) (s : Sim) :
  siteswap p <> [] ->
  period p = period_of (siteswap p) ->
  frame_inv p s ->
  exists s',
    frames n p s = Ok s' /\
    frame_inv p s' /\
    sim_time s' == sim_time s + inject_Z (Z.of_nat n) * dt /\
    map ball_id (sim_balls s') = map ball_id (sim_balls s) /\
    map color (ball_markers s') = map color (ball_markers s) /\
    (n <> O -> map center (ball_markers s') = map pos (sim_balls s')).
Proof.
  intros Hne Hp. revert s.
  induction n as [ | n IH]; intros s Hinv.
  - exists s. split; [ reflexivity | ].
    split; [ assumption | ].
    split; [ simpl; ring | ].
    repeat split. congruence.
  - destruct (update_frame_ok p s Hne Hp Hinv)
      as (s1 & Hu & Hinv1 & Ht1 & Hid1 & Hc1 & Hcol1).
    destruct (IH s1 Hinv1) as (s' & Hf & Hinv' & Ht & Hid & Hcol & Hc).
    exists s'. cbn [frames]. rewrite Hu. cbn [Py.bind].
    split; [ assumption | ].
    split; [ assumption | ].
    split.
    { rewrite Ht, Ht1. rewrite Nat2Z.inj_succ. unfold Z.succ.
      rewrite inject_Z_plus. ring. }
    split; [ congruence | ].
    split; [ congruence | ].
    intros _. destruct n as [ | n'].
    + simpl in Hf. injection Hf as <-. assumption.
    + apply Hc. discriminate.
Qed.

Lemma make_balls_ids (n : Z) : map ball_id (make_balls n) = Py.range n.
Proof.
  unfold make_balls. rewrite map_map. simpl. apply map_id.
Qed.

Lemma make_balls_inv (sw : list Z) (n : Z) :
  Forall (fun b => reachable sw b /\ flying_ok 0 b) (make_balls n).
Proof.
  unfold make_balls. apply Forall_forall. intros b Hb.
  apply in_map_iff in Hb. destruct Hb as (i & <- & _).
  split; [ apply reach_init | ].
  split; [ apply finite_array | ].
  intros f Hf. discriminate.
Qed.

Lemma start_ok (siteswap_input : string) :
  parse siteswap_input <> [] ->
  exists p s0,
    start siteswap_input = Ok (p, s0) /\
    siteswap p = parse siteswap_input /\
    period p = period_of (siteswap p) /\
    frame_inv p s0 /\
    sim_time s0 = 0 /\
    sim_balls s0 = balls p /\
    map ball_id (sim_balls s0) = Py.range (num_balls p).
Proof.
  intro Hne.
  pose proof (period_pos _ Hne) as Hp.
  unfold start, initialise, num_balls_of, Py.truediv.
  destruct (Z.eqb_spec (period_of (parse siteswap_input)) 0) as [K | _];
    [ lia | ].
  cbn [Py.bind]. unfold setup. cbn [num_balls balls].
  set (n := Py.int (inject_Z (Py.sum (parse siteswap_input))
                    / inject_Z (period_of (parse siteswap_input)))).
  destruct (make_markers_ok n) as (ms & Hms & Hl & _).
  rewrite Hms. cbn [Py.bind].
  do 2 eexists. split; [ reflexivity | ]. cbn.
  split; [ reflexivity | ].
  split; [ reflexivity | ].
  split.
  { split; cbn.
    - apply make_balls_inv.
    - rewrite Hl. unfold make_balls. rewrite length_map, range_length.
      reflexivity. }
  split; [ reflexivity | ].
  split; [ reflexivity | ].
  apply make_balls_ids.
Qed.

Lemma start_frames (siteswap_input : string) (n : nat) :
  parse siteswap_input <> [] ->
  exists p s0 sn,
    start siteswap_input = Ok (p, s0) /\
    frames n p s0 = Ok sn /\
    frame_inv p sn /\
    sim_time sn == inject_Z (Z.of_nat n) * dt /\
    map ball_id (sim_balls sn) = Py.range (num_balls p) /\
    map color (ball_markers sn) = map color (ball_markers s0) /\
    (n <> O -> map center (ball_markers sn) = map pos (sim_balls sn)).
Proof.
  intro Hne.
  destruct (start_ok siteswap_input Hne)
    as (p & s0 & Hs & Hsw & Hp & Hinv & Ht0 & _ & Hid0).
  assert (Hne' : siteswap p <> []) by (rewrite Hsw; assumption).
  destruct (frames_ok n p s0 Hne' Hp Hinv)
    as (sn & Hf & Hinv' & Ht & Hid & Hcol & Hc).
  exists p, s0, sn.
  split; [ assumption | ].
  split; [ assumption | ].
  split; [ assumption | ].
  split; [ rewrite Ht, Ht0; ring | ].
  split; [ congruence | ].
  split; assumption.
Qed.

(** X16.  From an ASCII input with a digit, the program starts and no
    frame ever raises; after any number of frames the balls are still the
    ones created, in the same order, with the same identifiers 0, 1, ...,
    and one marker each. *)
Theorem X16_frames_never_raise (siteswap_input : string) (n : nat) :
  isascii siteswap_input = true ->
  parse siteswap_input <> [] ->
  exists p s0 sn,
    start siteswap_input = Ok (p, s0) /\
    frames n p s0 = Ok sn /\
    map ball_id (sim_balls sn) = Py.range (num_balls p) /\
    List.length (sim_balls sn) = Z.to_nat (num_balls p) /\
    List.length (ball_markers sn) = List.length (sim_balls sn).
Proof.
  intros _ Hne.
  destruct (start_frames siteswap_input n Hne)
    as (p & s0 & sn & Hs & Hf & (_ & Hl) & _ & Hid & _).
  exists p, s0, sn.
  split; [ assumption | ].
  split; [ assumption | ].
  split; [ assumption | ].
  split; [ | assumption ].
  rewrite <- (length_map ball_id), Hid. apply range_length.
Qed.

Lemma X16_frames_never_raise_witness :
  isascii "40" = true /\
  exists p s0 sn,
    start "40" = Ok (p, s0) /\
    frames 50 p s0 = Ok sn /\
    map ball_id (sim_balls sn) = Py.range (num_balls p) /\
    List.length (sim_balls sn) = Z.to_nat (num_balls p) /\
    List.length (ball_markers sn) = List.length (sim_balls sn).
Proof.
  split; [ reflexivity | ].
  apply (X16_frames_never_raise "40" 50); [ reflexivity | discriminate ].
Defined.







(** X20.  On an ASCII input, the start of the program raises in one case
    only: an input without any digit, and then ZeroDivisionError. *)
Theorem X20_start_raises (siteswap_input : string) (e : Py.exn) :
  isascii siteswap_input = true ->
  (start siteswap_input = Err e <->
   parse siteswap_input = [] /\ e = Py.ZeroDivisionError).
Proof.
  intros _. split.
  - intro H.
    destruct (parse siteswap_input) as [ | x l] eqn:Ep.
    + split; [ reflexivity | ].
      unfold start, initialise, num_balls_of, Py.truediv in H.
      rewrite Ep in H. simpl in H. congruence.
    + assert (Hne : parse siteswap_input <> []) by (rewrite Ep; discriminate).
      destruct (start_ok siteswap_input Hne) as (p & s0 & Hs & _).
      congruence.
  - intros (Ep & ->).
    unfold start, initialise, num_balls_of, Py.truediv.
    rewrite Ep. reflexivity.
Qed.

Lemma X20_start_raises_witness :
  isascii "x y" = true /\
  (start "x y" = Err Py.ZeroDivisionError <->
   parse "x y" = [] /\ Py.ZeroDivisionError = Py.ZeroDivisionError).
Proof.
  split; [ reflexivity | ].
  apply (X20_start_raises "x y" Py.ZeroDivisionError). reflexivity.
Defined.

(** X21.  A throw of value 0 is a flight of no duration: at any call not
    earlier than the release the ball is caught in the hand that threw
    it, at that hand's position, and rescheduled at the time of the
    release. *)
Theorem X21_zero_throw (b : Ball) (t0 current_time : Q) (sw : list Z) (p : Z) :
  t0 <= current_time ->
  exists b',
    update (launch b t0 0) current_time sw p = Ok b' /\
    state b' = in_hand /\
    hand b' = hand b /\
    pos b' = array (hand_positions (hand b)) /\
    next_throw_time b' == t0.
Proof.
  intro Hle. unfold update. cbn [state flight launch start_time flight_time].
  assert (Ec : Py.Qlt_bool (current_time - t0) (inject_Z 0 * T_beat) = false).
  { apply Qlt_bool_false. change (inject_Z 0) with 0. unfold T_beat. lra. }
  rewrite Ec. eexists. split; [ reflexivity | ].
  cbn [state hand pos next_throw_time caught launch dest_hand catch_time].
  split; [ reflexivity | ].
  split; [ reflexivity | ].
  split; [ reflexivity | ].
  change (inject_Z 0) with 0. ring.
Qed.

Lemma X21_zero_throw_witness :
  exists b',
    update (launch (Ball_init 1 (1 # 2) L) (19 # 25) 0) (39 # 50) [4; 0]%Z 2
    = Ok b' /\
    state b' = in_hand /\
    hand b' = hand (Ball_init 1 (1 # 2) L) /\
    pos b' = array (hand_positions (hand (Ball_init 1 (1 # 2) L))) /\
    next_throw_time b' == 19 # 25.
Proof.
  apply (X21_zero_throw (Ball_init 1 (1 # 2) L) (19 # 25) (39 # 50) [4; 0]%Z 2).
  discriminate.
Defined.

(** ** Further facts: the timing of the animation *)






